(** * Device-profile application layer and notifications configuration

    A shallow embedding of two Go source files of edgex-go:

    - the device-profile application functions of core-metadata
      (package [application]: add, update, patch, delete, lookup and paged
      listing of device profiles), and
    - the configuration struct of support-notifications
      (package [config]: [UpdateFromRaw], [UpdateWritableFromRaw]).

    Go values are modelled as follows.  A pointer is an [option] ([None] is
    the nil pointer), dereferencing goes through [deref] and panics on nil.
    A slice is a list (a nil slice and an empty slice are both [[]]; only
    their length is ever observed here).  [int] and [uint32] are [Z]: no
    arithmetic is performed on them, only comparisons with constants.  A Go
    multiple return [(v, err)] is a pair whose second component is an
    [option EdgeX] ([None] is the nil error); the value component is kept
    even when the error is set, as in Go.  A goroutine started with [go] is
    recorded as a [Task] that has been scheduled; its body is never run by
    the caller.  Calls to the logging client are not modelled. *)

From Stdlib Require Import String List ZArith Bool Lia.
Import ListNotations.
Local Open Scope string_scope.
Local Open Scope Z_scope.

(** ** Common to both packages: how a Go call ends *)

Inductive Outcome (A : Type) : Type :=
| Returned (a : A)
| Panicked (reason : string).
Arguments Returned {A} a.
Arguments Panicked {A} reason.

Definition nilDereference : string :=
  "invalid memory address or nil pointer dereference".

(** * Package config (support-notifications) *)

Module NotificationsConfig.

Section Config.

(** Types imported from go-mod-bootstrap; nothing here looks inside them. *)
Context {ClientsCollection Database RegistryInfo ServiceInfo MessageBusInfo
         InsecureSecrets TelemetryInfo : Type}.

Record WritableInfo : Type := mkWritableInfo {
  LogLevel : string;
  ResendLimit : Z;
  ResendInterval : string;
  InsecureSecretsOf : InsecureSecrets;
  Telemetry : TelemetryInfo
}.

Record SmtpInfo : Type := mkSmtpInfo {
  Host : string;
  Port : Z;
  Sender : string;
  EnableSelfSignedCert : bool;
  Subject : string;
  SecretName : string;
  AuthMode : string
}.

Record NotificationRetention : Type := mkNotificationRetention {
  Enabled : bool;
  Interval : string;
  MaxCap : Z;
  MinCap : Z
}.

Record ConfigurationStruct : Type := mkConfigurationStruct {
  Writable : WritableInfo;
  Clients : ClientsCollection;
  DatabaseOf : Database;
  Registry : RegistryInfo;
  Service : ServiceInfo;
  MessageBus : MessageBusInfo;
  Smtp : SmtpInfo;
  Retention : NotificationRetention
}.

(** A value of Go's [interface{}], by dynamic type.  [AnyNil] is the nil
    interface (no dynamic type).  A pointer constructor carries [None] for
    a typed nil pointer.  [AnyOther] stands for every remaining dynamic
    type, named by its type name. *)
Inductive any : Type :=
| AnyNil
| AnyConfigurationStructPtr (p : option ConfigurationStruct)
| AnyWritableInfoPtr (p : option WritableInfo)
| AnyConfigurationStruct (v : ConfigurationStruct)
| AnyWritableInfo (v : WritableInfo)
| AnyString (s : string)
| AnyInt (z : Z)
| AnyBool (b : bool)
| AnyOther (typeName : string).

(** The comma-ok type assertion of [rawConfig] to a pointer to
    [ConfigurationStruct]. *)
Definition assertConfigurationStructPtr (raw : any)
  : option ConfigurationStruct * bool :=
  match raw with
  | AnyConfigurationStructPtr p => (p, true)
  | _ => (None, false)
  end.

(** The comma-ok type assertion of [rawWritable] to a pointer to
    [WritableInfo]. *)
Definition assertWritableInfoPtr (raw : any) : option WritableInfo * bool :=
  match raw with
  | AnyWritableInfoPtr p => (p, true)
  | _ => (None, false)
  end.

Definition setWritable (c : ConfigurationStruct) (w : WritableInfo)
  : ConfigurationStruct :=
  mkConfigurationStruct w (Clients c) (DatabaseOf c) (Registry c)
    (Service c) (MessageBus c) (Smtp c) (Retention c).

(** The receiver [c] is the service's configuration, passed as its current
    value; the result is how the call ends together with the value the
    receiver holds afterwards. *)
Definition UpdateFromRaw (c : ConfigurationStruct) (rawConfig : any)
  : Outcome bool * ConfigurationStruct :=
  let '(configuration, ok) := assertConfigurationStructPtr rawConfig in
  if ok then
    match configuration with
    | Some v => (Returned ok, v)
    | None => (Panicked nilDereference, c)
    end
  else (Returned ok, c).

Definition UpdateWritableFromRaw (c : ConfigurationStruct) (rawWritable : any)
  : Outcome bool * ConfigurationStruct :=
  let '(writable, ok) := assertWritableInfoPtr rawWritable in
  if ok then
    match writable with
    | Some w => (Returned ok, setWritable c w)
    | None => (Panicked nilDereference, c)
    end
  else (Returned ok, c).

(** The dynamic type of [raw] is the one the assertion expects. *)
Definition isConfigurationStructPtr (raw : any) : bool :=
  match raw with AnyConfigurationStructPtr _ => true | _ => false end.

Definition isWritableInfoPtr (raw : any) : bool :=
  match raw with AnyWritableInfoPtr _ => true | _ => false end.

(** *** The accessors of the configuration

    A pointer into the receiver is the value it points to at the time of
    the call ([Some]: such a pointer is never nil). *)

(** The zero values of the two imported types inside [WritableInfo]. *)
Variable zeroInsecureSecrets : InsecureSecrets.
Variable zeroTelemetryInfo : TelemetryInfo.

(** The composite literal [WritableInfo{}]. *)
Definition emptyWritableInfo : WritableInfo :=
  mkWritableInfo EmptyString 0 EmptyString zeroInsecureSecrets zeroTelemetryInfo.

(** A pointer to a variable allocated by the call that returns it.  Its
    [address] tells it apart from the pointer of every other allocation;
    [pointee] is the pointer as the rest of this file carries it, by the
    value it points to. *)
Record Allocated : Type := mkAllocated {
  address : nat;
  pointee : any
}.

(** The address-of a composite literal allocates a new variable at each
    call.  [next] is the first address not yet in use; the call returns the
    new pointer and the first address not in use afterwards. *)
Definition EmptyWritablePtr (c : ConfigurationStruct) (next : nat) : Allocated * nat :=
  (mkAllocated next (AnyWritableInfoPtr (Some emptyWritableInfo)), S next).

Definition GetWritablePtr (c : ConfigurationStruct) : any :=
  AnyWritableInfoPtr (Some (Writable c)).

(** [bootstrapConfig.BootstrapConfiguration], with the five fields the
    literal in [GetBootstrap] sets; each is a pointer. *)
Record BootstrapConfiguration : Type := mkBootstrapConfiguration {
  bootstrapClients : option ClientsCollection;
  bootstrapService : option ServiceInfo;
  bootstrapRegistry : option RegistryInfo;
  bootstrapMessageBus : option MessageBusInfo;
  bootstrapDatabase : option Database
}.

Definition GetBootstrap (c : ConfigurationStruct) : BootstrapConfiguration :=
  mkBootstrapConfiguration (Some (Clients c)) (Some (Service c)) (Some (Registry c))
    (Some (MessageBus c)) (Some (DatabaseOf c)).

Definition GetLogLevel (c : ConfigurationStruct) : string :=
  LogLevel (Writable c).

Definition GetRegistryInfo (c : ConfigurationStruct) : RegistryInfo :=
  Registry c.

Definition GetDatabaseInfo (c : ConfigurationStruct) : Database :=
  DatabaseOf c.

Definition GetInsecureSecrets (c : ConfigurationStruct) : InsecureSecrets :=
  InsecureSecretsOf (Writable c).

Definition GetTelemetryInfo (c : ConfigurationStruct) : option TelemetryInfo :=
  Some (Telemetry (Writable c)).

End Config.

Arguments WritableInfo : clear implicits.
Arguments ConfigurationStruct : clear implicits.
Arguments any : clear implicits.
Arguments BootstrapConfiguration : clear implicits.
Arguments Allocated : clear implicits.

(** Sample values over trivial imported types. *)
Definition sampleWritable (level : string) : WritableInfo unit unit :=
  mkWritableInfo level 2 "5s" tt tt.

Definition sampleConfig (level host : string)
  : ConfigurationStruct unit unit unit unit unit unit unit :=
  mkConfigurationStruct (sampleWritable level) tt tt tt tt tt
    (mkSmtpInfo host 25 "noreply" false "subject" "smtp" "usernamepassword")
    (mkNotificationRetention true "30m" 5000 4000).

End NotificationsConfig.

(** * Package application (core-metadata, device profiles) *)

Module Application.

(** ** Errors

    The [errors] package belongs to go-mod-core-contracts and is imported by
    the source.  An error value is represented by the constructor call that
    built it: [NewCommonEdgeX kind message wrapped] or
    [NewCommonEdgeXWrapper wrapped].  [Kind] reads the kind as the library
    documents it: a wrapper has the kind of the error it wraps. *)

Inductive ErrKind : Type :=
| KindUnknown
| KindDatabaseError
| KindCommunicationError
| KindEntityDoesNotExist
| KindContractInvalid
| KindServerError
| KindLimitExceeded
| KindStatusConflict
| KindDuplicateName
| KindInvalidId
| KindServiceUnavailable
| KindNotAllowed
| KindServiceLocked
| KindNotImplemented
| KindRangeNotSatisfiable
| KindIOError
| KindOverflowError
| KindNaNError.

#[warnings="-register-all"]
Inductive EdgeX : Type :=
| NewCommonEdgeX (kind : ErrKind) (message : string) (wrappedError : option EdgeX)
| NewCommonEdgeXWrapper (wrappedError : EdgeX).

Fixpoint Kind (e : EdgeX) : ErrKind :=
  match e with
  | NewCommonEdgeX KindUnknown _ (Some w) => Kind w
  | NewCommonEdgeX k _ _ => k
  | NewCommonEdgeXWrapper w => Kind w
  end.

(** The message an error carries; a wrapper without a message of its own
    shows the message of the error it wraps. *)
Fixpoint Message (e : EdgeX) : string :=
  match e with
  | NewCommonEdgeX _ EmptyString (Some w) => Message w
  | NewCommonEdgeX _ m _ => m
  | NewCommonEdgeXWrapper w => Message w
  end.

(** ** Models and DTOs

    [models] and [dtos] are imported from go-mod-core-contracts.  The records
    keep the fields this file reads and the basic fields a patch replaces. *)

Record ResourceProperties : Type := mkResourceProperties {
  Units : string
}.

(** [drName] is the field [Name] of a device resource. *)
Record DeviceResource : Type := mkDeviceResource {
  drName : string;
  Properties : ResourceProperties
}.

Record DeviceProfile : Type := mkDeviceProfile {
  Id : string;
  Name : string;
  Manufacturer : string;
  Description : string;
  Model : string;
  Labels : list string;
  DeviceResources : list DeviceResource
}.

(** [dtos.UpdateDeviceProfileBasicInfo]: every field is a pointer, [Labels]
    a slice that may be nil. *)
Record UpdateDeviceProfileBasicInfo : Type := mkUpdateDeviceProfileBasicInfo {
  dtoId : option string;
  dtoName : option string;
  dtoManufacturer : option string;
  dtoDescription : option string;
  dtoModel : option string;
  dtoLabels : option (list string)
}.

(** Devices and provision watchers; only the length of a result slice is
    read by this file. *)
Record Device : Type := mkDevice {
  deviceName : string;
  deviceProfileName : string
}.

Record ProvisionWatcher : Type := mkProvisionWatcher {
  watcherName : string;
  watcherProfileName : string
}.

(** ** Configuration of core-metadata

    Modelled from the spec: the configuration struct of core-metadata
    (package config of internal/core/metadata) is not among the sources; the
    three settings read here are the UoM-validation toggle, the maximum
    resource count per profile (0 = unlimited) and the strict-profile-deletes
    toggle. *)

Record UoMInfo : Type := mkUoMInfo {
  Validation : bool
}.

Record ProfileChangeInfo : Type := mkProfileChangeInfo {
  StrictDeviceProfileChanges : bool;
  StrictDeviceProfileDeletes : bool
}.

Record WritableInfo : Type := mkWritableInfo {
  UoM : UoMInfo;
  MaxResources : Z;
  ProfileChange : ProfileChangeInfo
}.

Record ConfigurationStruct : Type := mkConfigurationStruct {
  Writable : WritableInfo
}.

(** The units-of-measure capability. *)
Record UnitsOfMeasure : Type := mkUnitsOfMeasure {
  Validate : string -> bool
}.

(** ** The store interface

    [interfaces.DBClient], with the methods this file calls.  [DB] is the
    state of the store.  A query reads the store; a command (add, update,
    delete) also returns the store it leaves behind. *)

Module interfaces.

Record DBClient (DB : Type) : Type := mkDBClient {
  AddDeviceProfile : DeviceProfile -> DB -> (DeviceProfile * option EdgeX) * DB;
  UpdateDeviceProfile : DeviceProfile -> DB -> option EdgeX * DB;
  DeleteDeviceProfileByName : string -> DB -> option EdgeX * DB;
  DeviceProfileById : string -> DB -> DeviceProfile * option EdgeX;
  DeviceProfileByName : string -> DB -> DeviceProfile * option EdgeX;
  DeviceCountByProfileName : string -> DB -> Z * option EdgeX;
  DevicesByProfileName : Z -> Z -> string -> DB -> list Device * option EdgeX;
  ProvisionWatchersByProfileName :
    Z -> Z -> string -> DB -> list ProvisionWatcher * option EdgeX;
  DeviceProfileCountByLabels : list string -> DB -> Z * option EdgeX;
  AllDeviceProfiles :
    Z -> Z -> list string -> DB -> list DeviceProfile * option EdgeX;
  DeviceProfileCountByModel : string -> DB -> Z * option EdgeX;
  DeviceProfilesByModel :
    Z -> Z -> string -> DB -> list DeviceProfile * option EdgeX;
  DeviceProfileCountByManufacturer : string -> DB -> Z * option EdgeX;
  DeviceProfilesByManufacturer :
    Z -> Z -> string -> DB -> list DeviceProfile * option EdgeX;
  DeviceProfileCountByManufacturerAndModel :
    string -> string -> DB -> Z * option EdgeX;
  DeviceProfilesByManufacturerAndModel :
    Z -> Z -> string -> string -> DB -> list DeviceProfile * option EdgeX
}.

Arguments AddDeviceProfile {DB} _.
Arguments UpdateDeviceProfile {DB} _.
Arguments DeleteDeviceProfileByName {DB} _.
Arguments DeviceProfileById {DB} _.
Arguments DeviceProfileByName {DB} _.
Arguments DeviceCountByProfileName {DB} _.
Arguments DevicesByProfileName {DB} _.
Arguments ProvisionWatchersByProfileName {DB} _.
Arguments DeviceProfileCountByLabels {DB} _.
Arguments AllDeviceProfiles {DB} _.
Arguments DeviceProfileCountByModel {DB} _.
Arguments DeviceProfilesByModel {DB} _.
Arguments DeviceProfileCountByManufacturer {DB} _.
Arguments DeviceProfilesByManufacturer {DB} _.
Arguments DeviceProfileCountByManufacturerAndModel {DB} _.
Arguments DeviceProfilesByManufacturerAndModel {DB} _.

End interfaces.

(** The dependency-injection container, reduced to what is fetched from it. *)
Record Container (DB : Type) : Type := mkContainer {
  DBClientFrom : interfaces.DBClient DB;
  ConfigurationFrom : ConfigurationStruct;
  UnitsOfMeasureFrom : UnitsOfMeasure
}.
Arguments DBClientFrom {DB} _.
Arguments ConfigurationFrom {DB} _.
Arguments UnitsOfMeasureFrom {DB} _.

(** ** What a call does to its collaborators

    Every call to a collaborator is recorded, in order, with its arguments. *)

Inductive Call : Type :=
| CallValidate (units : string)
| CallCheckResourceCapacityByUpdateProfile (d : DeviceProfile)
| CallAddDeviceProfile (d : DeviceProfile)
| CallUpdateDeviceProfile (d : DeviceProfile)
| CallDeleteDeviceProfileByName (name : string)
| CallDeviceProfileById (id : string)
| CallDeviceProfileByName (name : string)
| CallDeviceCountByProfileName (name : string)
| CallDevicesByProfileName (offset limit : Z) (name : string)
| CallProvisionWatchersByProfileName (offset limit : Z) (name : string)
| CallDeviceProfileCountByLabels (labels : list string)
| CallAllDeviceProfiles (offset limit : Z) (labels : list string)
| CallDeviceProfileCountByModel (model : string)
| CallDeviceProfilesByModel (offset limit : Z) (model : string)
| CallDeviceProfileCountByManufacturer (manufacturer : string)
| CallDeviceProfilesByManufacturer (offset limit : Z) (manufacturer : string)
| CallDeviceProfileCountByManufacturerAndModel (manufacturer model : string)
| CallDeviceProfilesByManufacturerAndModel
    (offset limit : Z) (manufacturer model : string).

(** A call on the profile store (as opposed to the validator or the
    capacity checker). *)
Definition isStoreCall (c : Call) : bool :=
  match c with
  | CallValidate _ | CallCheckResourceCapacityByUpdateProfile _ => false
  | _ => true
  end.

Definition isValidate (c : Call) : bool :=
  match c with CallValidate _ => true | _ => false end.

Definition isCapacityCheck (c : Call) : bool :=
  match c with CallCheckResourceCapacityByUpdateProfile _ => true | _ => false end.

Definition isReplace (c : Call) : bool :=
  match c with CallUpdateDeviceProfile _ => true | _ => false end.

Definition isDelete (c : Call) : bool :=
  match c with CallDeleteDeviceProfileByName _ => true | _ => false end.

(** Constants of package [common], as tags. *)
Inductive SystemEventType : Type := DeviceProfileSystemEventType.
Inductive SystemEventAction : Type :=
| SystemEventActionAdd
| SystemEventActionUpdate
| SystemEventActionDelete.
Inductive ServiceKey : Type := CoreMetaDataServiceKey.

(** A goroutine handed to the scheduler; [ctx] is the request context,
    reduced to the correlation id it carries. *)
Inductive Task (DTO : Type) : Type :=
| GoPublishSystemEvent (eventType : SystemEventType) (action : SystemEventAction)
    (source : ServiceKey) (payload : DTO) (ctx : string)
| GoPublishUpdateDeviceProfileSystemEvent (payload : DTO) (ctx : string).
Arguments GoPublishSystemEvent {DTO}.
Arguments GoPublishUpdateDeviceProfileSystemEvent {DTO}.

(** ** The monad of application calls

    A computation starts from a store and ends with an outcome, the store it
    leaves, the calls it made and the goroutines it started. *)

Record Run (DB DTO A : Type) : Type := mkRun {
  value : Outcome A;
  store : DB;
  calls : list Call;
  spawned : list (Task DTO)
}.
Arguments mkRun {DB DTO A}.
Arguments value {DB DTO A}.
Arguments store {DB DTO A}.
Arguments calls {DB DTO A}.
Arguments spawned {DB DTO A}.

Definition M (DB DTO A : Type) : Type := DB -> Run DB DTO A.

Section Monad.
Context {DB DTO : Type}.

Definition ret {A} (a : A) : M DB DTO A :=
  fun db => mkRun (Returned a) db [] [].

Definition bind {A B} (m : M DB DTO A) (k : A -> M DB DTO B) : M DB DTO B :=
  fun db =>
    let r := m db in
    match value r with
    | Returned a =>
        let r' := k a (store r) in
        mkRun (value r') (store r') (calls r ++ calls r') (spawned r ++ spawned r')
    | Panicked reason => mkRun (Panicked reason) (store r) (calls r) (spawned r)
    end.

Definition panic {A} (reason : string) : M DB DTO A :=
  fun db => mkRun (Panicked reason) db [] [].

(** A recorded call that reads the store. *)
Definition query {A} (c : Call) (f : DB -> A) : M DB DTO A :=
  fun db => mkRun (Returned (f db)) db [c] [].

(** A recorded call that may change the store. *)
Definition command {A} (c : Call) (f : DB -> A * DB) : M DB DTO A :=
  fun db => mkRun (Returned (fst (f db))) (snd (f db)) [c] [].

(** The [go] statement. *)
Definition go (t : Task DTO) : M DB DTO unit :=
  fun db => mkRun (Returned tt) db [] [t].

(** Dereferencing a pointer. *)
Definition deref {A} (p : option A) : M DB DTO A :=
  match p with
  | Some a => ret a
  | None => panic nilDereference
  end.

End Monad.

Declare Scope go_scope.
Delimit Scope go_scope with go.
Notation "x <- c1 ;; c2" := (bind c1 (fun x => c2))
  (at level 61, c1 at next level, right associativity) : go_scope.
Notation "' pat <- c1 ;; c2" := (bind c1 (fun x => match x with pat => c2 end))
  (at level 61, pat pattern, c1 at next level, right associativity) : go_scope.
Notation "c1 ;;; c2" := (bind c1 (fun _ => c2))
  (at level 61, right associativity) : go_scope.

Local Open Scope go_scope.

(** ** The application functions *)

Section Functions.
Context {DB DTO BasicInfoDTO : Type}.

(** [dtos.FromDeviceProfileModelToDTO] and
    [dtos.FromDeviceProfileModelToBasicInfoDTO] (go-mod-core-contracts). *)
Variable FromDeviceProfileModelToDTO : DeviceProfile -> DTO.
Variable FromDeviceProfileModelToBasicInfoDTO : DeviceProfile -> BasicInfoDTO.

(** [requests.ReplaceDeviceProfileModelBasicInfoFieldsWithDTO]
    (go-mod-core-contracts); it updates the profile it is given a pointer
    to, here it returns the updated profile. *)
Variable ReplaceDeviceProfileModelBasicInfoFieldsWithDTO :
  DeviceProfile -> UpdateDeviceProfileBasicInfo -> DeviceProfile.

(** [utils.CheckCountRange totalCount offset limit], of package
    internal/pkg/utils, which is not among the sources: whether to go on
    and fetch the page, and the error to report otherwise. *)
Variable CheckCountRange : Z -> Z -> Z -> bool * option EdgeX.

(** Modelled from the spec: the Capacity Checker
    ([checkResourceCapacityByUpdateProfile], defined in another file of
    the package) computes from the stored state and the proposed profile
    whether the update would exceed the configured ceiling, and reports an
    error if so.  [capacityVerdict] is that computation; it reads the
    store and does not change it. *)
Variable capacityVerdict : DeviceProfile -> Container DB -> DB -> option EdgeX.

Definition checkResourceCapacityByUpdateProfile
    (d : DeviceProfile) (dic : Container DB) : M DB DTO (option EdgeX) :=
  query (CallCheckResourceCapacityByUpdateProfile d) (capacityVerdict d dic).

(** [uom.Validate(units)]. *)
Definition validate (uom : UnitsOfMeasure) (units : string) : M DB DTO bool :=
  query (CallValidate units) (fun _ => Validate uom units).

(** The loop of [deviceProfileUoMValidation] over [p.DeviceResources];
    when it runs to the end the function returns nil. *)
Fixpoint rangeDeviceResources (uom : UnitsOfMeasure) (drs : list DeviceResource)
  : M DB DTO (option EdgeX) :=
  match drs with
  | [] => ret None
  | dr :: rest =>
      ok <- validate uom (Units (Properties dr)) ;;
      if negb ok then
        ret (Some (NewCommonEdgeX KindContractInvalid
                     ("DeviceResource " ++ drName dr ++ " units "
                        ++ Units (Properties dr) ++ " is invalid")
                     None))
      else rangeDeviceResources uom rest
  end.

Definition deviceProfileUoMValidation (p : DeviceProfile) (dic : Container DB)
  : M DB DTO (option EdgeX) :=
  if Validation (UoM (Writable (ConfigurationFrom dic))) then
    let uom := UnitsOfMeasureFrom dic in
    rangeDeviceResources uom (DeviceResources p)
  else ret None.

Definition AddDeviceProfile (d : DeviceProfile) (ctx : string) (dic : Container DB)
  : M DB DTO (string * option EdgeX) :=
  let dbClient := DBClientFrom dic in
  err <- deviceProfileUoMValidation d dic ;;
  match err with
  | Some e => ret (EmptyString, Some (NewCommonEdgeXWrapper e))
  | None =>
      '(addedDeviceProfile, err) <-
         command (CallAddDeviceProfile d) (interfaces.AddDeviceProfile dbClient d) ;;
      match err with
      | Some e => ret (EmptyString, Some (NewCommonEdgeXWrapper e))
      | None =>
          let profileDTO := FromDeviceProfileModelToDTO addedDeviceProfile in
          go (GoPublishSystemEvent DeviceProfileSystemEventType SystemEventActionAdd
                CoreMetaDataServiceKey profileDTO ctx) ;;;
          ret (Id addedDeviceProfile, None)
      end
  end.

Definition UpdateDeviceProfile (d : DeviceProfile) (ctx : string) (dic : Container DB)
  : M DB DTO (option EdgeX) :=
  let dbClient := DBClientFrom dic in
  let config := ConfigurationFrom dic in
  err <- deviceProfileUoMValidation d dic ;;
  match err with
  | Some e => ret (Some (NewCommonEdgeXWrapper e))
  | None =>
      err <- (if 0 <? MaxResources (Writable config)
              then checkResourceCapacityByUpdateProfile d dic
              else ret None) ;;
      match err with
      | Some e => ret (Some (NewCommonEdgeXWrapper e))
      | None =>
          err <- command (CallUpdateDeviceProfile d)
                   (interfaces.UpdateDeviceProfile dbClient d) ;;
          match err with
          | Some e => ret (Some (NewCommonEdgeXWrapper e))
          | None =>
              '(profile, err) <-
                 query (CallDeviceProfileByName (Name d))
                   (interfaces.DeviceProfileByName dbClient (Name d)) ;;
              match err with
              | Some e => ret (Some (NewCommonEdgeXWrapper e))
              | None =>
                  let profileDTO := FromDeviceProfileModelToDTO profile in
                  go (GoPublishUpdateDeviceProfileSystemEvent profileDTO ctx) ;;;
                  ret None
              end
          end
      end
  end.

Definition isProfileInUse (profileName : string) (dic : Container DB)
  : M DB DTO (bool * option EdgeX) :=
  let dbClient := DBClientFrom dic in
  '(count, err) <-
     query (CallDeviceCountByProfileName profileName)
       (interfaces.DeviceCountByProfileName dbClient profileName) ;;
  match err with
  | Some e => ret (false, Some (NewCommonEdgeXWrapper e))
  | None => ret (0 <? count, None)
  end.

(** The zero value of [dtos.DeviceProfile], returned with an error, is
    [None]. *)
Definition DeviceProfileByName (name : string) (ctx : string) (dic : Container DB)
  : M DB DTO (option DTO * option EdgeX) :=
  if String.eqb name EmptyString then
    ret (None, Some (NewCommonEdgeX KindContractInvalid "name is empty" None))
  else
    let dbClient := DBClientFrom dic in
    '(dp, err) <-
       query (CallDeviceProfileByName name)
         (interfaces.DeviceProfileByName dbClient name) ;;
    match err with
    | Some e => ret (None, Some (NewCommonEdgeXWrapper e))
    | None => ret (Some (FromDeviceProfileModelToDTO dp), None)
    end.

Definition DeleteDeviceProfileByName (name : string) (ctx : string) (dic : Container DB)
  : M DB DTO (option EdgeX) :=
  let strictProfileDeletes :=
    StrictDeviceProfileDeletes (ProfileChange (Writable (ConfigurationFrom dic))) in
  if strictProfileDeletes then
    ret (Some (NewCommonEdgeX KindServiceLocked
           "profile deletion is not allowed when StrictDeviceProfileDeletes config is enabled"
           None))
  else if String.eqb name EmptyString then
    ret (Some (NewCommonEdgeX KindContractInvalid "name is empty" None))
  else
    let dbClient := DBClientFrom dic in
    '(profile, err) <-
       query (CallDeviceProfileByName name)
         (interfaces.DeviceProfileByName dbClient name) ;;
    match err with
    | Some e => ret (Some (NewCommonEdgeXWrapper e))
    | None =>
        '(devices, edgeXErr) <-
           query (CallDevicesByProfileName 0 1 name)
             (interfaces.DevicesByProfileName dbClient 0 1 name) ;;
        match edgeXErr with
        | Some e => ret (Some (NewCommonEdgeXWrapper e))
        | None =>
            if 0 <? Z.of_nat (length devices) then
              ret (Some (NewCommonEdgeX KindStatusConflict
                     "fail to delete the device profile when associated device exists"
                     None))
            else
              '(provisionWatchers, edgeXErr) <-
                 query (CallProvisionWatchersByProfileName 0 1 name)
                   (interfaces.ProvisionWatchersByProfileName dbClient 0 1 name) ;;
              match edgeXErr with
              | Some e => ret (Some (NewCommonEdgeXWrapper e))
              | None =>
                  if 0 <? Z.of_nat (length provisionWatchers) then
                    ret (Some (NewCommonEdgeX KindStatusConflict
                           "fail to delete the device profile when associated provisionWatcher exists"
                           None))
                  else
                    err <- command (CallDeleteDeviceProfileByName name)
                             (interfaces.DeleteDeviceProfileByName dbClient name) ;;
                    match err with
                    | Some e => ret (Some (NewCommonEdgeXWrapper e))
                    | None =>
                        let profileDTO := FromDeviceProfileModelToDTO profile in
                        go (GoPublishSystemEvent DeviceProfileSystemEventType
                              SystemEventActionDelete CoreMetaDataServiceKey
                              profileDTO ctx) ;;;
                        ret None
                    end
              end
        end
    end.

(** *** Paged listings

    The named results [deviceProfiles] and [totalCount] start as the nil
    slice and 0. *)

Definition AllDeviceProfiles (offset limit : Z) (labels : list string)
    (dic : Container DB) : M DB DTO (list DTO * Z * option EdgeX) :=
  let dbClient := DBClientFrom dic in
  '(totalCount, err) <-
     query (CallDeviceProfileCountByLabels labels)
       (interfaces.DeviceProfileCountByLabels dbClient labels) ;;
  match err with
  | Some e => ret ([], totalCount, Some (NewCommonEdgeXWrapper e))
  | None =>
      let '(cont, err) := CheckCountRange totalCount offset limit in
      if negb cont then ret ([], totalCount, err)
      else
        '(dps, err) <-
           query (CallAllDeviceProfiles offset limit labels)
             (interfaces.AllDeviceProfiles dbClient offset limit labels) ;;
        match err with
        | Some e => ret ([], totalCount, Some (NewCommonEdgeXWrapper e))
        | None => ret (map FromDeviceProfileModelToDTO dps, totalCount, None)
        end
  end.

Definition DeviceProfilesByModel (offset limit : Z) (model : string)
    (dic : Container DB) : M DB DTO (list DTO * Z * option EdgeX) :=
  if String.eqb model EmptyString then
    ret ([], 0, Some (NewCommonEdgeX KindContractInvalid "model is empty" None))
  else
    let dbClient := DBClientFrom dic in
    '(totalCount, err) <-
       query (CallDeviceProfileCountByModel model)
         (interfaces.DeviceProfileCountByModel dbClient model) ;;
    match err with
    | Some e => ret ([], totalCount, Some (NewCommonEdgeXWrapper e))
    | None =>
        let '(cont, err) := CheckCountRange totalCount offset limit in
        if negb cont then ret ([], totalCount, err)
        else
          '(dps, err) <-
             query (CallDeviceProfilesByModel offset limit model)
               (interfaces.DeviceProfilesByModel dbClient offset limit model) ;;
          match err with
          | Some e => ret ([], totalCount, Some (NewCommonEdgeXWrapper e))
          | None => ret (map FromDeviceProfileModelToDTO dps, totalCount, None)
          end
    end.

Definition DeviceProfilesByManufacturer (offset limit : Z) (manufacturer : string)
    (dic : Container DB) : M DB DTO (list DTO * Z * option EdgeX) :=
  if String.eqb manufacturer EmptyString then
    ret ([], 0, Some (NewCommonEdgeX KindContractInvalid "manufacturer is empty" None))
  else
    let dbClient := DBClientFrom dic in
    '(totalCount, err) <-
       query (CallDeviceProfileCountByManufacturer manufacturer)
         (interfaces.DeviceProfileCountByManufacturer dbClient manufacturer) ;;
    match err with
    | Some e => ret ([], totalCount, Some (NewCommonEdgeXWrapper e))
    | None =>
        let '(cont, err) := CheckCountRange totalCount offset limit in
        if negb cont then ret ([], totalCount, err)
        else
          '(dps, err) <-
             query (CallDeviceProfilesByManufacturer offset limit manufacturer)
               (interfaces.DeviceProfilesByManufacturer dbClient offset limit
                  manufacturer) ;;
          match err with
          | Some e => ret ([], totalCount, Some (NewCommonEdgeXWrapper e))
          | None => ret (map FromDeviceProfileModelToDTO dps, totalCount, None)
          end
    end.

Definition DeviceProfilesByManufacturerAndModel (offset limit : Z)
    (manufacturer model : string) (dic : Container DB)
  : M DB DTO (list DTO * Z * option EdgeX) :=
  if String.eqb manufacturer EmptyString then
    ret ([], 0, Some (NewCommonEdgeX KindContractInvalid "manufacturer is empty" None))
  else if String.eqb model EmptyString then
    ret ([], 0, Some (NewCommonEdgeX KindContractInvalid "model is empty" None))
  else
    let dbClient := DBClientFrom dic in
    '(totalCount, err) <-
       query (CallDeviceProfileCountByManufacturerAndModel manufacturer model)
         (interfaces.DeviceProfileCountByManufacturerAndModel dbClient
            manufacturer model) ;;
    match err with
    | Some e => ret ([], totalCount, Some (NewCommonEdgeXWrapper e))
    | None =>
        let '(cont, err) := CheckCountRange totalCount offset limit in
        if negb cont then ret ([], totalCount, err)
        else
          '(dps, err) <-
             query (CallDeviceProfilesByManufacturerAndModel offset limit
                      manufacturer model)
               (interfaces.DeviceProfilesByManufacturerAndModel dbClient offset
                  limit manufacturer model) ;;
          match err with
          | Some e => ret ([], totalCount, Some (NewCommonEdgeXWrapper e))
          | None => ret (map FromDeviceProfileModelToDTO dps, totalCount, None)
          end
    end.

Definition AllDeviceProfileBasicInfos (offset limit : Z) (labels : list string)
    (dic : Container DB) : M DB DTO (list BasicInfoDTO * Z * option EdgeX) :=
  let dbClient := DBClientFrom dic in
  '(totalCount, err) <-
     query (CallDeviceProfileCountByLabels labels)
       (interfaces.DeviceProfileCountByLabels dbClient labels) ;;
  match err with
  | Some e => ret ([], totalCount, Some (NewCommonEdgeXWrapper e))
  | None =>
      let '(cont, err) := CheckCountRange totalCount offset limit in
      if negb cont then ret ([], totalCount, err)
      else
        '(dps, err) <-
           query (CallAllDeviceProfiles offset limit labels)
             (interfaces.AllDeviceProfiles dbClient offset limit labels) ;;
        match err with
        | Some e => ret ([], totalCount, Some (NewCommonEdgeXWrapper e))
        | None =>
            ret (map FromDeviceProfileModelToBasicInfoDTO dps, totalCount, None)
        end
  end.

(** *** Patching the basic info *)

(** The two branches of the source end in the same error check, written
    once here after the branch. *)
Definition deviceProfileByDTO (dbClient : interfaces.DBClient DB)
    (dto : UpdateDeviceProfileBasicInfo)
  : M DB DTO (DeviceProfile * option EdgeX) :=
  let byName :=
    name <- deref (dtoName dto) ;;
    query (CallDeviceProfileByName name)
      (interfaces.DeviceProfileByName dbClient name) in
  '(deviceProfile, err) <-
     match dtoId dto with
     | Some id =>
         if negb (String.eqb id EmptyString) then
           query (CallDeviceProfileById id)
             (interfaces.DeviceProfileById dbClient id)
         else byName
     | None => byName
     end ;;
  match err with
  | Some e => ret (deviceProfile, Some (NewCommonEdgeXWrapper e))
  | None =>
      match dtoName dto with
      | Some name =>
          if negb (String.eqb name (Name deviceProfile)) then
            ret (deviceProfile,
                 Some (NewCommonEdgeX KindContractInvalid
                         ("device profile name '" ++ name
                            ++ "' not match the exsting '"
                            ++ Name deviceProfile ++ "' ")
                         None))
          else ret (deviceProfile, None)
      | None => ret (deviceProfile, None)
      end
  end.

Definition PatchDeviceProfileBasicInfo (ctx : string)
    (dto : UpdateDeviceProfileBasicInfo) (dic : Container DB)
  : M DB DTO (option EdgeX) :=
  let dbClient := DBClientFrom dic in
  '(deviceProfile, err) <- deviceProfileByDTO dbClient dto ;;
  match err with
  | Some e => ret (Some (NewCommonEdgeXWrapper e))
  | None =>
      let deviceProfile :=
        ReplaceDeviceProfileModelBasicInfoFieldsWithDTO deviceProfile dto in
      err <- command (CallUpdateDeviceProfile deviceProfile)
               (interfaces.UpdateDeviceProfile dbClient deviceProfile) ;;
      match err with
      | Some e => ret (Some (NewCommonEdgeXWrapper e))
      | None =>
          let profileDTO := FromDeviceProfileModelToDTO deviceProfile in
          go (GoPublishUpdateDeviceProfileSystemEvent profileDTO ctx) ;;;
          ret None
      end
  end.

End Functions.

(** ** Specification-level notions used to state the properties *)

Section Notions.
Context {DB : Type}.

(** The profile stored under [name] exists: the lookup reports no error. *)
Definition profileExists (dic : Container DB) (name : string) (db : DB) : Prop :=
  snd (interfaces.DeviceProfileByName (DBClientFrom dic) name db) = None.

(** The existence probes of the delete guard: one row at offset 0. *)
Definition deviceProbe (dic : Container DB) (name : string) (db : DB)
  : list Device * option EdgeX :=
  interfaces.DevicesByProfileName (DBClientFrom dic) 0 1 name db.

Definition watcherProbe (dic : Container DB) (name : string) (db : DB)
  : list ProvisionWatcher * option EdgeX :=
  interfaces.ProvisionWatchersByProfileName (DBClientFrom dic) 0 1 name db.

(** A probe answered, without error, with at least one row. *)
Definition probeFinds {A} (answer : list A * option EdgeX) : Prop :=
  snd answer = None /\ fst answer <> [].

(** Every unit of the profile passes the validator, or validation is off. *)
Definition uomAccepts (dic : Container DB) (p : DeviceProfile) : bool :=
  negb (Validation (UoM (Writable (ConfigurationFrom dic))))
  || forallb (fun dr => Validate (UnitsOfMeasureFrom dic) (Units (Properties dr)))
       (DeviceResources p).

(** The message of the invalid-unit error for resource [dr]. *)
Definition invalidUnitsMessage (dr : DeviceResource) : string :=
  "DeviceResource " ++ drName dr ++ " units " ++ Units (Properties dr)
    ++ " is invalid".

(** The validator rejects the units of [dr]. *)
Definition rejected (uom : UnitsOfMeasure) (dr : DeviceResource) : bool :=
  negb (Validate uom (Units (Properties dr))).

(** The resources the validation loop visits: up to and including the
    first one whose units are rejected. *)
Fixpoint visited (uom : UnitsOfMeasure) (drs : list DeviceResource)
  : list DeviceResource :=
  match drs with
  | [] => []
  | dr :: rest => dr :: (if rejected uom dr then [] else visited uom rest)
  end.

Definition invalidUnits (dr : DeviceResource) : EdgeX :=
  NewCommonEdgeX KindContractInvalid (invalidUnitsMessage dr) None.

Definition callValidate (dr : DeviceResource) : Call :=
  CallValidate (Units (Properties dr)).

(** The validation as a whole: the error of the first rejected resource
    when validation is on, and the validator calls made on the way. *)
Definition validationVerdict (p : DeviceProfile) (dic : Container DB) : option EdgeX :=
  if Validation (UoM (Writable (ConfigurationFrom dic))) then
    option_map invalidUnits
      (find (rejected (UnitsOfMeasureFrom dic)) (DeviceResources p))
  else None.

Definition validationCalls (p : DeviceProfile) (dic : Container DB) : list Call :=
  if Validation (UoM (Writable (ConfigurationFrom dic))) then
    map callValidate (visited (UnitsOfMeasureFrom dic) (DeviceResources p))
  else [].

(** The id of the payload is present and not empty. *)
Definition hasId (dto : UpdateDeviceProfileBasicInfo) : bool :=
  match dtoId dto with
  | Some id => negb (String.eqb id EmptyString)
  | None => false
  end.

(** The target of a patch, as the specification words it: fetched by id
    if the id is non-empty, else by name; [None] when there is neither. *)
Definition resolveTarget (dbClient : interfaces.DBClient DB)
    (dto : UpdateDeviceProfileBasicInfo) (db : DB)
  : option (DeviceProfile * option EdgeX) :=
  if hasId dto then
    match dtoId dto with
    | Some id => Some (interfaces.DeviceProfileById dbClient id db)
    | None => None
    end
  else
    match dtoName dto with
    | Some name => Some (interfaces.DeviceProfileByName dbClient name db)
    | None => None
    end.

End Notions.

(** The shape the listings share (count, range check, page, projection),
    used to state their common properties once. *)
Definition listingShape {DB DTO A : Type}
    (CheckCountRange : Z -> Z -> Z -> bool * option EdgeX)
    (countCall : Call) (count : DB -> Z * option EdgeX)
    (pageCall : Call) (page : DB -> list DeviceProfile * option EdgeX)
    (project : DeviceProfile -> A) (offset limit : Z)
  : M DB DTO (list A * Z * option EdgeX) :=
  '(totalCount, err) <- query countCall count ;;
  match err with
  | Some e => ret ([], totalCount, Some (NewCommonEdgeXWrapper e))
  | None =>
      let '(cont, err) := CheckCountRange totalCount offset limit in
      if negb cont then ret ([], totalCount, err)
      else
        '(dps, err) <- query pageCall page ;;
        match err with
        | Some e => ret ([], totalCount, Some (NewCommonEdgeXWrapper e))
        | None => ret (map project dps, totalCount, None)
        end
  end.

(** What a listing owes its caller, given the answer [count] of the store's
    count query, the recorded count call and the starting store:
    the total returned is the counted total on every path, and when the
    range check says not to continue, the page is empty, the error is the
    one the check reports, and only the count query was made. *)
Definition listingContract {DB DTO A : Type}
    (CheckCountRange : Z -> Z -> Z -> bool * option EdgeX)
    (r : Run DB DTO (list A * Z * option EdgeX))
    (countCall : Call) (count : Z * option EdgeX) (offset limit : Z) (db : DB)
  : Prop :=
  (exists page err, value r = Returned (page, fst count, err))
  /\ store r = db
  /\ (snd count = None ->
      forall err, CheckCountRange (fst count) offset limit = (false, err) ->
        value r = Returned ([], fst count, err) /\ calls r = [countCall]).

(** ** The range check of the specification *)

(** Modelled from the spec: [utils.CheckCountRange] (package
    internal/pkg/utils of this repository) is not among the sources.
    Section 4.6 of the specification: given the total count, the offset and
    the limit, the check determines whether the requested window can be
    served.  A window out of range relative to the total (an offset beyond
    the total) is refused with no error, a degenerate but valid case; an
    invalid pagination input (a negative offset) is refused with an
    invalid-contract error; every other window is served.  The
    specification puts no condition on the limit. *)
Definition CheckCountRange (totalCount offset limit : Z) : bool * option EdgeX :=
  if offset <? 0 then
    (false, Some (NewCommonEdgeX KindContractInvalid "offset is negative" None))
  else if totalCount <? offset then (false, None)
  else (true, None).

(** What a listing owes its caller under that range check, given the answer
    [count] of the store's count query: the contract of [listingContract];
    for an offset that is not negative and lies beyond the counted total,
    the empty page with that total and no error, after the count query
    alone; for a negative offset, the empty page with that total and an
    invalid-contract error, after the count query alone; and when the
    listing stops after a successful count query with an error, the offset
    was negative and the error is an invalid-contract one. *)
Definition listingRefusal {DB DTO A : Type}
    (r : Run DB DTO (list A * Z * option EdgeX))
    (countCall : Call) (count : Z * option EdgeX) (offset limit : Z) (db : DB)
  : Prop :=
  listingContract CheckCountRange r countCall count offset limit db
  /\ (snd count = None -> 0 <= offset -> fst count < offset ->
      value r = Returned ([], fst count, None) /\ calls r = [countCall])
  /\ (snd count = None -> offset < 0 ->
      exists e,
        value r = Returned ([], fst count, Some e)
        /\ Kind e = KindContractInvalid
        /\ calls r = [countCall])
  /\ (snd count = None -> calls r = [countCall] ->
      forall page total e,
        value r = Returned (page, total, Some e) ->
        offset < 0 /\ Kind e = KindContractInvalid).

(** ** Further notions: gates, writes and the paths of a listing *)

(** A call that can change the profile store. *)
Definition isWrite (c : Call) : bool :=
  match c with
  | CallAddDeviceProfile _ | CallUpdateDeviceProfile _
  | CallDeleteDeviceProfileByName _ => true
  | _ => false
  end.

(** The store call that resolves the target of a patch: the lookup by id
    when the payload has a usable id, else the lookup by its name. *)
Definition resolveCall (dto : UpdateDeviceProfileBasicInfo) : Call :=
  if hasId dto
  then CallDeviceProfileById (match dtoId dto with Some id => id | None => EmptyString end)
  else CallDeviceProfileByName
         (match dtoName dto with Some name => name | None => EmptyString end).

(** The payload carries a name and it is not the name of [found]. *)
Definition nameDisagrees (dto : UpdateDeviceProfileBasicInfo) (found : DeviceProfile)
  : bool :=
  match dtoName dto with
  | Some name => negb (String.eqb name (Name found))
  | None => false
  end.

Section Gates.
Context {DB : Type}.

(** A probe answered, without error, with no row. *)
Definition probeEmpty {A} (answer : list A * option EdgeX) : Prop :=
  snd answer = None /\ fst answer = [].

(** The five gates of delete-by-name, in the order the code checks them. *)
Definition deleteGatesPass (dic : Container DB) (name : string) (db : DB) : Prop :=
  StrictDeviceProfileDeletes (ProfileChange (Writable (ConfigurationFrom dic))) = false
  /\ name <> EmptyString
  /\ profileExists dic name db
  /\ probeEmpty (deviceProbe dic name db)
  /\ probeEmpty (watcherProbe dic name db).

(** The capacity gate of an update lets the profile through: no ceiling is
    configured, or the checker reports no error. *)
Definition capacityAllows
    (capacityVerdict : DeviceProfile -> Container DB -> DB -> option EdgeX)
    (dic : Container DB) (d : DeviceProfile) (db : DB) : Prop :=
  0 < MaxResources (Writable (ConfigurationFrom dic)) -> capacityVerdict d dic db = None.

End Gates.

(** What holds of a listing on every path: it returns; an error comes with
    the empty page; the store is as before and nothing is scheduled; it
    makes no call, or the count query, or the count query and then the page
    query; and the page query is made only after a count without error and
    a range check that says to continue. *)
Definition listingGuarded {DB DTO A : Type}
    (CheckCountRange : Z -> Z -> Z -> bool * option EdgeX)
    (r : Run DB DTO (list A * Z * option EdgeX))
    (countCall : Call) (count : Z * option EdgeX) (pageCall : Call)
    (offset limit : Z) (db : DB) : Prop :=
  (exists page total err,
      value r = Returned (page, total, err) /\ (err <> None -> page = []))
  /\ store r = db
  /\ spawned r = []
  /\ (calls r = [] \/ calls r = [countCall] \/ calls r = [countCall; pageCall])
  /\ (In pageCall (calls r) ->
      snd count = None /\ fst (CheckCountRange (fst count) offset limit) = true).

(** What a listing returns once the count succeeded and the range check
    said to continue, given the answer [rows] of the store's page query:
    the projection of the rows, in their order, with the counted total; or,
    if the page query failed, the empty page with its error wrapped. *)
Definition listingServes {DB DTO A : Type}
    (CheckCountRange : Z -> Z -> Z -> bool * option EdgeX)
    (r : Run DB DTO (list A * Z * option EdgeX))
    (countCall : Call) (count : Z * option EdgeX)
    (pageCall : Call) (rows : list DeviceProfile * option EdgeX)
    (project : DeviceProfile -> A) (offset limit : Z) : Prop :=
  snd count = None ->
  fst (CheckCountRange (fst count) offset limit) = true ->
  calls r = [countCall; pageCall]
  /\ (snd rows = None ->
      value r = Returned (map project (fst rows), fst count, None))
  /\ (forall e, snd rows = Some e ->
        value r = Returned ([], fst count, Some (NewCommonEdgeXWrapper e))).

(** ** An in-memory store

    A small implementation of the store interface over lists, with a range
    check and a capacity checker to go with it.  It is not part of the
    sources: it instantiates the collaborators so that the application
    functions can be run on concrete inputs in the examples below. *)

Module MemStore.

Record t : Type := mk {
  profiles : list DeviceProfile;
  devices : list Device;
  watchers : list ProvisionWatcher
}.

Definition zeroProfile : DeviceProfile :=
  mkDeviceProfile EmptyString EmptyString EmptyString EmptyString EmptyString [] [].

Definition notFound : EdgeX :=
  NewCommonEdgeX KindEntityDoesNotExist "device profile not found" None.

Definition named (name : string) (p : DeviceProfile) : bool :=
  String.eqb (Name p) name.

Definition window {A} (offset limit : Z) (l : list A) : list A :=
  let rest := skipn (Z.to_nat offset) l in
  if limit <? 0 then rest else firstn (Z.to_nat limit) rest.

Definition size {A} (l : list A) : Z := Z.of_nat (length l).

Definition withId (id : string) (p : DeviceProfile) : DeviceProfile :=
  mkDeviceProfile id (Name p) (Manufacturer p) (Description p) (Model p)
    (Labels p) (DeviceResources p).

Definition add (d : DeviceProfile) (db : t) : (DeviceProfile * option EdgeX) * t :=
  match find (named (Name d)) (profiles db) with
  | Some _ =>
      ((d, Some (NewCommonEdgeX KindDuplicateName "device profile name exists" None)),
       db)
  | None =>
      let id := if String.eqb (Id d) EmptyString then "id-" ++ Name d else Id d in
      let stored := withId id d in
      ((stored, None), mk (profiles db ++ [stored]) (devices db) (watchers db))
  end.

(** Replace keeps the id under which the profile is stored. *)
Definition update (d : DeviceProfile) (db : t) : option EdgeX * t :=
  match find (named (Name d)) (profiles db) with
  | None => (Some notFound, db)
  | Some old =>
      (None,
       mk (map (fun p => if named (Name d) p then withId (Id old) d else p)
             (profiles db))
          (devices db) (watchers db))
  end.

Definition delete (name : string) (db : t) : option EdgeX * t :=
  match find (named name) (profiles db) with
  | None => (Some notFound, db)
  | Some _ =>
      (None,
       mk (filter (fun p => negb (named name p)) (profiles db))
          (devices db) (watchers db))
  end.

Definition lookup (f : DeviceProfile -> bool) (db : t) : DeviceProfile * option EdgeX :=
  match find f (profiles db) with
  | Some p => (p, None)
  | None => (zeroProfile, Some notFound)
  end.

Definition devicesOf (name : string) (db : t) : list Device :=
  filter (fun d => String.eqb (deviceProfileName d) name) (devices db).

Definition watchersOf (name : string) (db : t) : list ProvisionWatcher :=
  filter (fun w => String.eqb (watcherProfileName w) name) (watchers db).

Definition labelled (labels : list string) (p : DeviceProfile) : bool :=
  forallb (fun l => existsb (String.eqb l) (Labels p)) labels.

Definition ofModel (model : string) (p : DeviceProfile) : bool :=
  String.eqb (Model p) model.

Definition ofManufacturer (manufacturer : string) (p : DeviceProfile) : bool :=
  String.eqb (Manufacturer p) manufacturer.

Definition counting (f : DeviceProfile -> bool) (db : t) : Z * option EdgeX :=
  (size (filter f (profiles db)), None).

Definition listing (f : DeviceProfile -> bool) (offset limit : Z) (db : t)
  : list DeviceProfile * option EdgeX :=
  (window offset limit (filter f (profiles db)), None).

Definition client : interfaces.DBClient t :=
  {| interfaces.AddDeviceProfile := add;
     interfaces.UpdateDeviceProfile := update;
     interfaces.DeleteDeviceProfileByName := delete;
     interfaces.DeviceProfileById := fun id => lookup (fun p => String.eqb (Id p) id);
     interfaces.DeviceProfileByName := fun name => lookup (named name);
     interfaces.DeviceCountByProfileName :=
       fun name db => (size (devicesOf name db), None);
     interfaces.DevicesByProfileName :=
       fun offset limit name db => (window offset limit (devicesOf name db), None);
     interfaces.ProvisionWatchersByProfileName :=
       fun offset limit name db => (window offset limit (watchersOf name db), None);
     interfaces.DeviceProfileCountByLabels := fun labels => counting (labelled labels);
     interfaces.AllDeviceProfiles :=
       fun offset limit labels => listing (labelled labels) offset limit;
     interfaces.DeviceProfileCountByModel := fun model => counting (ofModel model);
     interfaces.DeviceProfilesByModel :=
       fun offset limit model => listing (ofModel model) offset limit;
     interfaces.DeviceProfileCountByManufacturer :=
       fun manufacturer => counting (ofManufacturer manufacturer);
     interfaces.DeviceProfilesByManufacturer :=
       fun offset limit manufacturer => listing (ofManufacturer manufacturer) offset limit;
     interfaces.DeviceProfileCountByManufacturerAndModel :=
       fun manufacturer model =>
         counting (fun p => ofManufacturer manufacturer p && ofModel model p);
     interfaces.DeviceProfilesByManufacturerAndModel :=
       fun offset limit manufacturer model =>
         listing (fun p => ofManufacturer manufacturer p && ofModel model p) offset limit
  |}.

(** A range check: nothing to fetch when the limit or the total is 0,
    an error when the offset lies outside the total. *)
Definition checkCountRange (totalCount offset limit : Z) : bool * option EdgeX :=
  if (limit =? 0) || (totalCount =? 0) then (false, None)
  else if (offset <? 0) || (totalCount <=? offset) then
    (false,
     Some (NewCommonEdgeX KindRangeNotSatisfiable
             "query objects bounds out of range" None))
  else (true, None).

(** A capacity checker: the resources of the proposed profile, once per
    device that uses it, against the configured ceiling. *)
Definition capacity (d : DeviceProfile) (dic : Container t) (db : t) : option EdgeX :=
  let instances := Z.max 1 (size (devicesOf (Name d) db)) in
  if MaxResources (Writable (ConfigurationFrom dic))
       <? size (DeviceResources d) * instances
  then Some (NewCommonEdgeX KindStatusConflict
               "the total number of resources exceeds MaxResources" None)
  else None.

(** A patch replaces the basic fields the payload carries. *)
Definition replaceBasicInfo (dp : DeviceProfile) (patch : UpdateDeviceProfileBasicInfo)
  : DeviceProfile :=
  let pick {A} (o : option A) (a : A) := match o with Some x => x | None => a end in
  mkDeviceProfile (Id dp) (Name dp)
    (pick (dtoManufacturer patch) (Manufacturer dp))
    (pick (dtoDescription patch) (Description dp))
    (pick (dtoModel patch) (Model dp))
    (pick (dtoLabels patch) (Labels dp))
    (DeviceResources dp).

(** The validator that knows a fixed list of units. *)
Definition knownUnits (units : list string) : UnitsOfMeasure :=
  mkUnitsOfMeasure (fun u => existsb (String.eqb u) units).

Definition config (validation : bool) (maxResources : Z) (strictDeletes : bool)
  : ConfigurationStruct :=
  mkConfigurationStruct
    (mkWritableInfo (mkUoMInfo validation) maxResources
       (mkProfileChangeInfo false strictDeletes)).

Definition container (validation : bool) (maxResources : Z) (strictDeletes : bool)
  : Container t :=
  mkContainer t client (config validation maxResources strictDeletes)
    (knownUnits ["Celsius"; "Percent"]).

(** Sample data: a profile with one resource, and a device and a
    provision watcher that use it. *)
Definition tempSensor (units : string) : DeviceProfile :=
  mkDeviceProfile "id-1" "Temp-Sensor-X" "Acme" "thermometer" "T1000" ["temp"]
    [mkDeviceResource "Temperature" (mkResourceProperties units)].

Definition thermostat : Device := mkDevice "thermostat-1" "Temp-Sensor-X".
Definition scout : ProvisionWatcher := mkProvisionWatcher "scout-1" "Temp-Sensor-X".

(** A profile with three resources. *)
Definition weatherStation : DeviceProfile :=
  mkDeviceProfile "id-2" "Weather-Station" "Acme" "outdoor station" "W300" ["weather"]
    [mkDeviceResource "Temperature" (mkResourceProperties "Celsius");
     mkDeviceResource "Humidity" (mkResourceProperties "Percent");
     mkDeviceResource "Battery" (mkResourceProperties "Percent")].

(** A profile whose second resource, of three, has an unknown unit. *)
Definition depthGauge : DeviceProfile :=
  mkDeviceProfile "id-3" "Depth-Gauge" "Acme" "gauge" "D10" ["depth"]
    [mkDeviceResource "Temperature" (mkResourceProperties "Celsius");
     mkDeviceResource "Depth" (mkResourceProperties "Furlong");
     mkDeviceResource "Humidity" (mkResourceProperties "Percent")].

(** The DTO projections of the examples: the profile itself, and its name. *)
Definition toDTO (p : DeviceProfile) : DeviceProfile := p.
Definition toBasicInfoDTO (p : DeviceProfile) : string := Name p.

(** A patch payload selecting by id and carrying a name. *)
Definition patchOf (id name : option string) : UpdateDeviceProfileBasicInfo :=
  mkUpdateDeviceProfileBasicInfo id name None (Some "patched") None None.

Definition onlyProfile : t := mk [tempSensor "Celsius"] [] [].
Definition twoProfiles : t := mk [tempSensor "Celsius"; weatherStation] [] [].
Definition withDevice : t := mk [tempSensor "Celsius"] [thermostat] [].
Definition withWatcher : t := mk [tempSensor "Celsius"] [] [scout].

(** The same store when its writes fail, and when its page and probe
    queries fail. *)
Definition unavailable : EdgeX :=
  NewCommonEdgeX KindDatabaseError "database unavailable" None.

Definition readOnlyClient : interfaces.DBClient t :=
  {| interfaces.AddDeviceProfile := fun d db => ((zeroProfile, Some unavailable), db);
     interfaces.UpdateDeviceProfile := fun _ db => (Some unavailable, db);
     interfaces.DeleteDeviceProfileByName := fun _ db => (Some unavailable, db);
     interfaces.DeviceProfileById := interfaces.DeviceProfileById client;
     interfaces.DeviceProfileByName := interfaces.DeviceProfileByName client;
     interfaces.DeviceCountByProfileName := interfaces.DeviceCountByProfileName client;
     interfaces.DevicesByProfileName := interfaces.DevicesByProfileName client;
     interfaces.ProvisionWatchersByProfileName :=
       interfaces.ProvisionWatchersByProfileName client;
     interfaces.DeviceProfileCountByLabels := interfaces.DeviceProfileCountByLabels client;
     interfaces.AllDeviceProfiles := interfaces.AllDeviceProfiles client;
     interfaces.DeviceProfileCountByModel := interfaces.DeviceProfileCountByModel client;
     interfaces.DeviceProfilesByModel := interfaces.DeviceProfilesByModel client;
     interfaces.DeviceProfileCountByManufacturer :=
       interfaces.DeviceProfileCountByManufacturer client;
     interfaces.DeviceProfilesByManufacturer :=
       interfaces.DeviceProfilesByManufacturer client;
     interfaces.DeviceProfileCountByManufacturerAndModel :=
       interfaces.DeviceProfileCountByManufacturerAndModel client;
     interfaces.DeviceProfilesByManufacturerAndModel :=
       interfaces.DeviceProfilesByManufacturerAndModel client
  |}.

Definition noRowsClient : interfaces.DBClient t :=
  {| interfaces.AddDeviceProfile := add;
     interfaces.UpdateDeviceProfile := update;
     interfaces.DeleteDeviceProfileByName := delete;
     interfaces.DeviceProfileById := interfaces.DeviceProfileById client;
     interfaces.DeviceProfileByName := interfaces.DeviceProfileByName client;
     interfaces.DeviceCountByProfileName := fun _ _ => (0, Some unavailable);
     interfaces.DevicesByProfileName := fun _ _ _ _ => ([], Some unavailable);
     interfaces.ProvisionWatchersByProfileName := fun _ _ _ _ => ([], Some unavailable);
     interfaces.DeviceProfileCountByLabels := interfaces.DeviceProfileCountByLabels client;
     interfaces.AllDeviceProfiles := fun _ _ _ _ => ([], Some unavailable);
     interfaces.DeviceProfileCountByModel := interfaces.DeviceProfileCountByModel client;
     interfaces.DeviceProfilesByModel := fun _ _ _ _ => ([], Some unavailable);
     interfaces.DeviceProfileCountByManufacturer :=
       interfaces.DeviceProfileCountByManufacturer client;
     interfaces.DeviceProfilesByManufacturer := fun _ _ _ _ => ([], Some unavailable);
     interfaces.DeviceProfileCountByManufacturerAndModel :=
       interfaces.DeviceProfileCountByManufacturerAndModel client;
     interfaces.DeviceProfilesByManufacturerAndModel :=
       fun _ _ _ _ _ => ([], Some unavailable)
  |}.

Definition containerOver (dbClient : interfaces.DBClient t)
    (validation : bool) (maxResources : Z) (strictDeletes : bool) : Container t :=
  mkContainer t dbClient (config validation maxResources strictDeletes)
    (knownUnits ["Celsius"; "Percent"]).

End MemStore.

End Application.

(** * Properties of package config (support-notifications) *)

Module NotificationsConfigFacts.
Import NotificationsConfig.

Section Facts.
Context {ClientsCollection Database RegistryInfo ServiceInfo MessageBusInfo
         InsecureSecrets TelemetryInfo : Type}.

Let Config : Type :=
  ConfigurationStruct ClientsCollection Database RegistryInfo ServiceInfo
    MessageBusInfo InsecureSecrets TelemetryInfo.
Let Raw : Type :=
  any ClientsCollection Database RegistryInfo ServiceInfo
    MessageBusInfo InsecureSecrets TelemetryInfo.

Lemma setWritable_spec (c : Config) (w : WritableInfo InsecureSecrets TelemetryInfo) :
  Writable (setWritable c w) = w
  /\ Clients (setWritable c w) = Clients c
  /\ DatabaseOf (setWritable c w) = DatabaseOf c
  /\ Registry (setWritable c w) = Registry c
  /\ Service (setWritable c w) = Service c
  /\ MessageBus (setWritable c w) = MessageBus c
  /\ Smtp (setWritable c w) = Smtp c
  /\ Retention (setWritable c w) = Retention c.
Proof. repeat split. Qed.

Lemma UpdateFromRaw_true_iff (c : Config) (raw : Raw) :
  fst (UpdateFromRaw c raw) = Returned true
  <-> exists v, raw = AnyConfigurationStructPtr (Some v).
Proof.
  split.
  - destruct raw as [ | [v|] | | | | | | | ]; cbn; intro H; try discriminate H.
    now exists v.
  - intros [v ->]. reflexivity.
Qed.

Lemma UpdateWritableFromRaw_true_iff (c : Config) (raw : Raw) :
  fst (UpdateWritableFromRaw c raw) = Returned true
  <-> exists w, raw = AnyWritableInfoPtr (Some w).
Proof.
  split.
  - destruct raw as [ | | [w|] | | | | | | ]; cbn; intro H; try discriminate H.
    now exists w.
  - intros [w ->]. reflexivity.
Qed.

(** C10 (as amended).  [UpdateFromRaw] returns true, and then the
    configuration is the value the argument points to, exactly when the
    argument is a non-nil pointer to a [ConfigurationStruct];
    [UpdateWritableFromRaw] returns true, and then the Writable section is
    the value pointed to and every other section is as before, exactly
    when the argument is a non-nil pointer to a [WritableInfo].  For an
    argument of any other dynamic type (the nil interface included) they
    return false and the configuration is unchanged. *)
Theorem update_from_raw_by_dynamic_type (c : Config) (raw : Raw) :
  (fst (UpdateFromRaw c raw) = Returned true
     <-> exists v, raw = AnyConfigurationStructPtr (Some v))
  /\ (forall v, raw = AnyConfigurationStructPtr (Some v) ->
        UpdateFromRaw c raw = (Returned true, v))
  /\ (isConfigurationStructPtr raw = false ->
        UpdateFromRaw c raw = (Returned false, c))
  /\ (fst (UpdateWritableFromRaw c raw) = Returned true
        <-> exists w, raw = AnyWritableInfoPtr (Some w))
  /\ (forall w, raw = AnyWritableInfoPtr (Some w) ->
        UpdateWritableFromRaw c raw = (Returned true, setWritable c w)
        /\ Writable (setWritable c w) = w)
  /\ (isWritableInfoPtr raw = false ->
        UpdateWritableFromRaw c raw = (Returned false, c)).
Proof.
  split; [apply UpdateFromRaw_true_iff|].
  split; [intros v ->; reflexivity|].
  split; [destruct raw; cbn; intro H; try discriminate H; reflexivity|].
  split; [apply UpdateWritableFromRaw_true_iff|].
  split; [intros w ->; split; reflexivity|].
  destruct raw; cbn; intro H; try discriminate H; reflexivity.
Qed.

End Facts.

(** The theorem at concrete arguments: a pointer to a new configuration, a
    pointer to a new Writable section, and a string. *)
Lemma update_from_raw_by_dynamic_type_witness :
  UpdateFromRaw (sampleConfig "INFO" "a.example")
    (AnyConfigurationStructPtr (Some (sampleConfig "DEBUG" "b.example")))
  = (Returned true, sampleConfig "DEBUG" "b.example")
  /\ UpdateWritableFromRaw (sampleConfig "INFO" "a.example")
       (AnyWritableInfoPtr (Some (sampleWritable "TRACE")))
     = (Returned true, sampleConfig "TRACE" "a.example")
  /\ UpdateFromRaw (sampleConfig "INFO" "a.example") (AnyString "DEBUG")
     = (Returned false, sampleConfig "INFO" "a.example").
Proof.
  split; [|split].
  - apply (update_from_raw_by_dynamic_type (sampleConfig "INFO" "a.example")
             (AnyConfigurationStructPtr (Some (sampleConfig "DEBUG" "b.example")))).
    reflexivity.
  - apply (update_from_raw_by_dynamic_type (sampleConfig "INFO" "a.example")
             (AnyWritableInfoPtr (Some (sampleWritable "TRACE")))).
    reflexivity.
  - apply (update_from_raw_by_dynamic_type (sampleConfig "INFO" "a.example")
             (AnyString "DEBUG")).
    reflexivity.
Defined.

(** C10 fails as stated at a nil pointer of the expected type: the
    assertion succeeds, and the dereference that follows panics instead of
    returning true. *)
Lemma update_from_raw_typed_nil :
  isConfigurationStructPtr
    (AnyConfigurationStructPtr (None : option (ConfigurationStruct unit unit unit unit unit unit unit)))
  = true
  /\ fst (UpdateFromRaw (sampleConfig "INFO" "a.example") (AnyConfigurationStructPtr None))
     <> Returned true
  /\ UpdateFromRaw (sampleConfig "INFO" "a.example") (AnyConfigurationStructPtr None)
     = (Panicked nilDereference, sampleConfig "INFO" "a.example")
  /\ UpdateWritableFromRaw (sampleConfig "INFO" "a.example") (AnyWritableInfoPtr None)
     = (Panicked nilDereference, sampleConfig "INFO" "a.example").
Proof.
  split; [reflexivity|].
  split; [cbn; discriminate|].
  split; reflexivity.
Qed.

(** ** The accessors and how the two updates compose *)

Section Accessors.
Context {ClientsCollection Database RegistryInfo ServiceInfo MessageBusInfo
         InsecureSecrets TelemetryInfo : Type}.

Let Config : Type :=
  ConfigurationStruct ClientsCollection Database RegistryInfo ServiceInfo
    MessageBusInfo InsecureSecrets TelemetryInfo.
Let Raw : Type :=
  any ClientsCollection Database RegistryInfo ServiceInfo
    MessageBusInfo InsecureSecrets TelemetryInfo.
Let Writable' : Type := WritableInfo InsecureSecrets TelemetryInfo.

Lemma setWritable_same (c : Config) : setWritable c (Writable c) = c.
Proof. destruct c. reflexivity. Qed.

(** X1.  The pointer [GetWritablePtr] returns, given back to
    [UpdateWritableFromRaw], is accepted and leaves the configuration as it
    is; and after a successful [UpdateWritableFromRaw], [GetWritablePtr]
    points to the section that was written. *)
Theorem writable_pointer_round_trip (c : Config) (w : Writable') :
  UpdateWritableFromRaw c (GetWritablePtr c) = (Returned true, c)
  /\ GetWritablePtr (snd (UpdateWritableFromRaw c (AnyWritableInfoPtr (Some w))))
     = (AnyWritableInfoPtr (Some w) : Raw).
Proof.
  split.
  - unfold GetWritablePtr, UpdateWritableFromRaw. cbn.
    now rewrite setWritable_same.
  - reflexivity.
Qed.

(** X2.  Whatever its argument, [UpdateWritableFromRaw] leaves everything
    outside the Writable section as it is: the bootstrap view, the
    registry and database information, the SMTP and retention settings.
    With a non-nil [WritableInfo] pointer, the log level, the insecure
    secrets and the telemetry settings read afterwards are those of the
    value pointed to. *)
Theorem update_writable_touches_only_writable (c : Config) (raw : Raw) (w : Writable') :
  (let c' := snd (UpdateWritableFromRaw c raw) in
   GetBootstrap c' = GetBootstrap c
   /\ GetRegistryInfo c' = GetRegistryInfo c
   /\ GetDatabaseInfo c' = GetDatabaseInfo c
   /\ Smtp c' = Smtp c
   /\ Retention c' = Retention c)
  /\ (let c' := snd (UpdateWritableFromRaw c (AnyWritableInfoPtr (Some w))) in
      GetLogLevel c' = LogLevel w
      /\ GetInsecureSecrets c' = InsecureSecretsOf w
      /\ GetTelemetryInfo c' = Some (Telemetry w)).
Proof.
  split.
  - destruct raw as [ | | [w'|] | | | | | | ]; cbn; repeat split.
  - cbn. repeat split.
Qed.

(** X3.  The updates compose as assignments do: of two Writable updates
    the later one stands; a Writable update after a full update gives the
    new configuration with that Writable section; a full update after a
    Writable update gives the new configuration alone. *)
Theorem last_update_wins (c v : Config) (w1 w2 : Writable') :
  let full x := AnyConfigurationStructPtr (Some x) : Raw in
  let part x := AnyWritableInfoPtr (Some x) : Raw in
  snd (UpdateWritableFromRaw (snd (UpdateWritableFromRaw c (part w1))) (part w2))
  = snd (UpdateWritableFromRaw c (part w2))
  /\ snd (UpdateWritableFromRaw (snd (UpdateFromRaw c (full v))) (part w1))
     = setWritable v w1
  /\ snd (UpdateFromRaw (snd (UpdateWritableFromRaw c (part w1))) (full v)) = v
  /\ snd (UpdateFromRaw (snd (UpdateFromRaw c (full v))) (full v))
     = snd (UpdateFromRaw c (full v)).
Proof. cbn. repeat split. Qed.

(** X4.  A call of either update that does not return true, because it
    returns false or because it panics, leaves the configuration as it
    was. *)
Theorem configuration_changes_only_on_true (c : Config) (raw : Raw) :
  (fst (UpdateFromRaw c raw) = Returned true \/ snd (UpdateFromRaw c raw) = c)
  /\ (fst (UpdateWritableFromRaw c raw) = Returned true
      \/ snd (UpdateWritableFromRaw c raw) = c).
Proof.
  destruct raw as [ | [v|] | [w|] | | | | | | ]; cbn; split; auto.
Qed.


End Accessors.

End NotificationsConfigFacts.

(** * Properties of package application (device profiles) *)

Module ApplicationFacts.
Import Application.
Local Open Scope list_scope.
Local Open Scope go_scope.

(** Unfolds the monad so that a run reduces to its record. *)
Ltac run_go :=
  cbn [bind ret query command go panic deref value store calls spawned
       fst snd app negb].

Section UoM.
Context {DB DTO : Type}.

Lemma rangeDeviceResources_run uom drs (db : DB) :
  rangeDeviceResources (DTO := DTO) uom drs db
  = mkRun (Returned (option_map invalidUnits (find (rejected uom) drs)))
      db (map callValidate (visited uom drs)) [].
Proof.
  induction drs as [|dr rest IH]; [reflexivity|].
  cbn [rangeDeviceResources find visited map].
  unfold bind, validate, query. run_go.
  unfold rejected at 1 3.
  destruct (Validate uom (Units (Properties dr))); run_go.
  - rewrite IH. reflexivity.
  - reflexivity.
Qed.

(** The first rejected resource splits the list: everything before it is
    accepted, and the loop visits the list up to it. *)
Lemma find_rejected_split uom drs dr :
  find (rejected uom) drs = Some dr ->
  exists pre post,
    drs = pre ++ dr :: post
    /\ Forall (fun r => Validate uom (Units (Properties r)) = true) pre
    /\ Validate uom (Units (Properties dr)) = false
    /\ visited uom drs = pre ++ [dr].
Proof.
  induction drs as [|a rest IH]; cbn [find visited]; [discriminate|].
  destruct (rejected uom a) eqn:Ha.
  - intro H. injection H as ->. exists [], rest. repeat split; auto.
    unfold rejected in Ha. now apply negb_true_iff in Ha.
  - intro H. destruct (IH H) as (pre & post & -> & Hpre & Hdr & Hvis).
    exists (a :: pre), post. repeat split; auto.
    + constructor; auto. unfold rejected in Ha. now apply negb_false_iff in Ha.
    + cbn. now rewrite Hvis.
Qed.

Lemma find_rejected_some uom drs :
  (exists dr, In dr drs /\ Validate uom (Units (Properties dr)) = false) ->
  exists dr, find (rejected uom) drs = Some dr.
Proof.
  intros (dr & Hin & Hdr).
  destruct (find (rejected uom) drs) as [x|] eqn:Hf; [now exists x|].
  exfalso. pose proof (find_none _ _ Hf dr Hin) as Hn.
  unfold rejected in Hn. rewrite Hdr in Hn. discriminate Hn.
Qed.

Lemma find_rejected_none uom drs :
  forallb (fun dr => Validate uom (Units (Properties dr))) drs = true ->
  find (rejected uom) drs = None.
Proof.
  induction drs as [|a rest IH]; cbn; [reflexivity|].
  intro H. apply andb_true_iff in H as [Ha Hr].
  unfold rejected. rewrite Ha. cbn. auto.
Qed.

Lemma callValidate_not_store l :
  existsb isStoreCall (map callValidate l) = false.
Proof. induction l; cbn; auto. Qed.

Lemma callValidate_not_capacity l :
  existsb isCapacityCheck (map callValidate l) = false.
Proof. induction l; cbn; auto. Qed.

Lemma deviceProfileUoMValidation_run p (dic : Container DB) db :
  deviceProfileUoMValidation (DTO := DTO) p dic db
  = mkRun (Returned (validationVerdict p dic)) db (validationCalls p dic) [].
Proof.
  unfold deviceProfileUoMValidation, validationVerdict, validationCalls.
  destruct (Validation _); [apply rangeDeviceResources_run|reflexivity].
Qed.

Lemma validationCalls_not_capacity p (dic : Container DB) :
  existsb isCapacityCheck (validationCalls p dic) = false.
Proof.
  unfold validationCalls. destruct (Validation _); [|reflexivity].
  apply callValidate_not_capacity.
Qed.

(** The verdict agrees with the boolean reading of the invariant. *)
Lemma validationVerdict_accepts p (dic : Container DB) :
  validationVerdict p dic = None <-> uomAccepts dic p = true.
Proof.
  unfold validationVerdict, uomAccepts.
  destruct (Validation _); cbn; [|tauto].
  split.
  - intro H.
    destruct (find _ _) as [x|] eqn:Hf; [discriminate H|].
    apply forallb_forall. intros dr Hin.
    pose proof (find_none _ _ Hf dr Hin) as Hn.
    unfold rejected in Hn. now apply negb_false_iff in Hn.
  - intro H. now rewrite (find_rejected_none _ _ H).
Qed.

End UoM.

(** Case analysis on whatever the goal still branches on. *)
Ltac split_run :=
  repeat (run_go;
          match goal with
          | |- context [match ?x with _ => _ end] => destruct x eqn:?
          | |- context [if ?x then _ else _] => destruct x eqn:?
          end);
  run_go.

Section Claims.
Context {DB DTO BasicInfoDTO : Type}.
Variable toDTO : DeviceProfile -> DTO.
Variable toBasicInfoDTO : DeviceProfile -> BasicInfoDTO.
Variable replaceBasicInfo :
  DeviceProfile -> UpdateDeviceProfileBasicInfo -> DeviceProfile.
Variable checkCountRange : Z -> Z -> Z -> bool * option EdgeX.
Variable capacityVerdict : DeviceProfile -> Container DB -> DB -> option EdgeX.

Local Abbreviation Add := (AddDeviceProfile toDTO).
Local Abbreviation Update := (UpdateDeviceProfile toDTO capacityVerdict).
Local Abbreviation Delete := (DeleteDeviceProfileByName toDTO).
Local Abbreviation Patch := (PatchDeviceProfileBasicInfo toDTO replaceBasicInfo).

(** C2.  With UoM validation enabled and some resource of the profile
    rejected by the validator, both add and update return the
    invalid-contract error built for the first rejected resource (wrapped
    once), having called nothing but the validator, on that resource and
    the ones before it: no store call is made and the store is as before.
    With validation disabled neither of them calls the validator. *)
Theorem uom_validation_guards_add_and_update
    (d : DeviceProfile) (ctx : string) (dic : Container DB) (db : DB) :
  let uom := UnitsOfMeasureFrom dic in
  (Validation (UoM (Writable (ConfigurationFrom dic))) = true ->
   (exists dr, In dr (DeviceResources d)
               /\ Validate uom (Units (Properties dr)) = false) ->
   exists pre dr post,
     DeviceResources d = pre ++ dr :: post
     /\ Forall (fun r => Validate uom (Units (Properties r)) = true) pre
     /\ Validate uom (Units (Properties dr)) = false
     /\ Kind (NewCommonEdgeXWrapper (invalidUnits dr)) = KindContractInvalid
     /\ Message (NewCommonEdgeXWrapper (invalidUnits dr)) = invalidUnitsMessage dr
     /\ Add d ctx dic db
        = mkRun (Returned (EmptyString, Some (NewCommonEdgeXWrapper (invalidUnits dr))))
            db (map callValidate (pre ++ [dr])) []
     /\ Update d ctx dic db
        = mkRun (Returned (Some (NewCommonEdgeXWrapper (invalidUnits dr))))
            db (map callValidate (pre ++ [dr])) []
     /\ existsb isStoreCall (map callValidate (pre ++ [dr])) = false)
  /\ (Validation (UoM (Writable (ConfigurationFrom dic))) = false ->
      existsb isValidate (calls (Add d ctx dic db)) = false
      /\ existsb isValidate (calls (Update d ctx dic db)) = false).
Proof.
  intro uom. split.
  - intros Hon Hbad.
    destruct (find_rejected_some uom _ Hbad) as [dr Hfind].
    destruct (find_rejected_split _ _ _ Hfind) as (pre & post & Hsplit & Hpre & Hdr & Hvis).
    exists pre, dr, post.
    assert (Hverdict : validationVerdict d dic = Some (invalidUnits dr)).
    { unfold validationVerdict. rewrite Hon. fold uom. now rewrite Hfind. }
    assert (Hcalls : validationCalls d dic = map callValidate (pre ++ [dr])).
    { unfold validationCalls. rewrite Hon. fold uom. now rewrite Hvis. }
    repeat split; auto.
    + unfold AddDeviceProfile, bind.
      rewrite deviceProfileUoMValidation_run. run_go.
      rewrite Hverdict, Hcalls. run_go. now rewrite app_nil_r.
    + unfold UpdateDeviceProfile, bind.
      rewrite deviceProfileUoMValidation_run. run_go.
      rewrite Hverdict, Hcalls. run_go. now rewrite app_nil_r.
    + apply callValidate_not_store.
  - intro Hoff.
    assert (Hverdict : validationVerdict d dic = None)
      by (unfold validationVerdict; now rewrite Hoff).
    assert (Hcalls : validationCalls d dic = [])
      by (unfold validationCalls; now rewrite Hoff).
    split.
    + unfold AddDeviceProfile, bind.
      rewrite deviceProfileUoMValidation_run. run_go.
      rewrite Hverdict, Hcalls. unfold command.
      split_run; reflexivity.
    + unfold UpdateDeviceProfile, bind.
      rewrite deviceProfileUoMValidation_run. run_go.
      rewrite Hverdict, Hcalls.
      unfold checkResourceCapacityByUpdateProfile, command, query.
      split_run; reflexivity.
Qed.

(** C3.  With strict device-profile deletes enabled, delete-by-name returns
    the service-locked error at once, whatever the name and the store: no
    call is made, the store is as before and no event is scheduled. *)
Theorem strict_deletes_lock_before_any_check
    (name ctx : string) (dic : Container DB) (db : DB) :
  StrictDeviceProfileDeletes (ProfileChange (Writable (ConfigurationFrom dic))) = true ->
  Delete name ctx dic db
  = mkRun
      (Returned
         (Some (NewCommonEdgeX KindServiceLocked
                  "profile deletion is not allowed when StrictDeviceProfileDeletes config is enabled"
                  None)))
      db [] [].
Proof.
  intro Hstrict. unfold DeleteDeviceProfileByName.
  rewrite Hstrict. reflexivity.
Qed.

(** C8.  A listing called with an empty required filter field returns the
    invalid-contract error with the nil page and total 0, and makes no call
    at all: the model for list-by-model, the manufacturer for
    list-by-manufacturer, either of them for
    list-by-manufacturer-and-model. *)
Theorem empty_filter_is_refused_without_store_call
    (offset limit : Z) (manufacturer model : string) (dic : Container DB) (db : DB) :
  DeviceProfilesByModel toDTO checkCountRange offset limit EmptyString dic db
  = mkRun (Returned ([], 0, Some (NewCommonEdgeX KindContractInvalid "model is empty" None)))
      db [] []
  /\ DeviceProfilesByManufacturer toDTO checkCountRange offset limit EmptyString dic db
     = mkRun (Returned ([], 0, Some (NewCommonEdgeX KindContractInvalid
                                       "manufacturer is empty" None)))
         db [] []
  /\ DeviceProfilesByManufacturerAndModel toDTO checkCountRange offset limit
       EmptyString model dic db
     = mkRun (Returned ([], 0, Some (NewCommonEdgeX KindContractInvalid
                                       "manufacturer is empty" None)))
         db [] []
  /\ exists message,
       DeviceProfilesByManufacturerAndModel toDTO checkCountRange offset limit
         manufacturer EmptyString dic db
       = mkRun (Returned ([], 0, Some (NewCommonEdgeX KindContractInvalid message None)))
           db [] [].
Proof.
  repeat split.
  unfold DeviceProfilesByManufacturerAndModel.
  destruct (String.eqb manufacturer EmptyString); cbn [String.eqb];
    eexists; reflexivity.
Qed.

Lemma nonempty_has_rows {A} (l : list A) :
  l <> [] -> (0 <? Z.of_nat (length l)) = true.
Proof. destruct l; [congruence|]. intros _. reflexivity. Qed.

Lemma eqb_nonempty (s : string) : s <> EmptyString -> String.eqb s EmptyString = false.
Proof. intro H. now apply String.eqb_neq. Qed.

(** C1 (as amended).  When strict deletes are disabled and the name is not
    empty, deleting a profile that exists and for which the device probe, or
    else the provision-watcher probe, finds a row, returns a status-conflict
    error; the store's delete is not called, the store is as before and no
    event is scheduled.  Each probe asks for one row at offset 0, and the
    watcher probe is made only after an empty device probe. *)
Theorem referenced_profile_is_not_deleted
    (name ctx : string) (dic : Container DB) (db : DB) :
  StrictDeviceProfileDeletes (ProfileChange (Writable (ConfigurationFrom dic))) = false ->
  name <> EmptyString ->
  profileExists dic name db ->
  probeFinds (deviceProbe dic name db)
  \/ (snd (deviceProbe dic name db) = None /\ probeFinds (watcherProbe dic name db)) ->
  let r := Delete name ctx dic db in
  (exists message,
      value r = Returned (Some (NewCommonEdgeX KindStatusConflict message None)))
  /\ existsb isDelete (calls r) = false
  /\ store r = db
  /\ spawned r = []
  /\ exists rest,
       calls r = CallDeviceProfileByName name :: CallDevicesByProfileName 0 1 name :: rest
       /\ (rest = [] \/ rest = [CallProvisionWatchersByProfileName 0 1 name]).
Proof.
  intros Hstrict Hname Hexists Href.
  unfold DeleteDeviceProfileByName. rewrite Hstrict, (eqb_nonempty _ Hname).
  unfold profileExists in Hexists. unfold deviceProbe, watcherProbe, probeFinds in Href.
  unfold bind, query. run_go.
  destruct (interfaces.DeviceProfileByName (DBClientFrom dic) name db) as [profile err].
  cbn [snd] in Hexists. subst err. run_go.
  destruct (interfaces.DevicesByProfileName (DBClientFrom dic) 0 1 name db)
    as [devices derr].
  cbn [fst snd] in Href.
  destruct Href as [[-> Hrows] | [-> Hwatch]]; run_go.
  - rewrite (nonempty_has_rows _ Hrows). run_go.
    repeat split; eauto.
  - destruct (0 <? Z.of_nat (length devices)); run_go.
    + repeat split; eauto.
    + destruct (interfaces.ProvisionWatchersByProfileName (DBClientFrom dic) 0 1 name db)
        as [watchers werr].
      cbn [fst snd] in Hwatch. destruct Hwatch as [-> Hrows]. run_go.
      rewrite (nonempty_has_rows _ Hrows). run_go.
      repeat split; eauto.
Qed.

Lemma not_in_when_none (f : Call -> bool) (l : list Call) (c : Call) :
  existsb f l = false -> f c = true -> ~ In c l.
Proof.
  intros Hnone Hc Hin.
  assert (existsb f l = true) by (apply existsb_exists; eauto).
  congruence.
Qed.

(** How an update runs: the validator calls first; then, if validation
    passed, the capacity check when a ceiling is configured; then, if that
    passed, the replace; then, if that succeeded, the re-fetch by name. *)
Lemma UpdateDeviceProfile_run (d : DeviceProfile) (ctx : string) (dic : Container DB) (db : DB) :
  let dbClient := DBClientFrom dic in
  let gate := 0 <? MaxResources (Writable (ConfigurationFrom dic)) in
  let checked := if gate then [CallCheckResourceCapacityByUpdateProfile d] else [] in
  let replaced := interfaces.UpdateDeviceProfile dbClient d db in
  let refetch := interfaces.DeviceProfileByName dbClient (Name d) (snd replaced) in
  Update d ctx dic db
  = match validationVerdict d dic with
    | Some e =>
        mkRun (Returned (Some (NewCommonEdgeXWrapper e))) db (validationCalls d dic) []
    | None =>
        match (if gate then capacityVerdict d dic db else None) with
        | Some e =>
            mkRun (Returned (Some (NewCommonEdgeXWrapper e))) db
              (validationCalls d dic ++ checked) []
        | None =>
            match fst replaced with
            | Some e =>
                mkRun (Returned (Some (NewCommonEdgeXWrapper e))) (snd replaced)
                  (validationCalls d dic ++ checked ++ [CallUpdateDeviceProfile d]) []
            | None =>
                match snd refetch with
                | Some e =>
                    mkRun (Returned (Some (NewCommonEdgeXWrapper e))) (snd replaced)
                      (validationCalls d dic ++ checked
                         ++ [CallUpdateDeviceProfile d; CallDeviceProfileByName (Name d)])
                      []
                | None =>
                    mkRun (Returned None) (snd replaced)
                      (validationCalls d dic ++ checked
                         ++ [CallUpdateDeviceProfile d; CallDeviceProfileByName (Name d)])
                      [GoPublishUpdateDeviceProfileSystemEvent (toDTO (fst refetch)) ctx]
                end
            end
        end
    end.
Proof.
  intros dbClient gate checked replaced refetch.
  unfold UpdateDeviceProfile, bind.
  rewrite deviceProfileUoMValidation_run. run_go.
  destruct (validationVerdict d dic) as [e|]; run_go.
  { rewrite ?app_nil_r; reflexivity. }
  fold gate. subst checked.
  unfold checkResourceCapacityByUpdateProfile, command, query.
  destruct gate; run_go.
  - destruct (capacityVerdict d dic db) as [e|]; run_go.
    { rewrite ?app_nil_r; reflexivity. }
    fold dbClient. fold replaced.
    destruct (fst replaced) as [e|]; run_go.
    { rewrite ?app_nil_r; reflexivity. }
    fold refetch. destruct refetch as [profile [e|]]; run_go; reflexivity.
  - fold dbClient. fold replaced.
    destruct (fst replaced) as [e|]; run_go.
    { rewrite ?app_nil_r; reflexivity. }
    fold refetch. destruct refetch as [profile [e|]]; run_go; reflexivity.
Qed.

Lemma validationCalls_not_replace (p : DeviceProfile) (dic : Container DB) :
  existsb isReplace (validationCalls p dic) = false.
Proof.
  unfold validationCalls. destruct (Validation _); [|reflexivity].
  induction (visited _ _); cbn; auto.
Qed.

(** C4 (as amended).  On an update the capacity check runs exactly when UoM
    validation has passed and the configured maximum resource count is
    greater than 0.  When it runs and reports an error, the update returns
    that error wrapped once (so with the same kind: a conflict when the
    checker reports a conflict); the store's replace is not called, the
    store is as before and no event is scheduled. *)
Theorem capacity_check_runs_after_validation
    (d : DeviceProfile) (ctx : string) (dic : Container DB) (db : DB) :
  let ceiling := MaxResources (Writable (ConfigurationFrom dic)) in
  let r := Update d ctx dic db in
  (existsb isCapacityCheck (calls r) = true <-> uomAccepts dic d = true /\ 0 < ceiling)
  /\ forall e,
       uomAccepts dic d = true -> 0 < ceiling -> capacityVerdict d dic db = Some e ->
       value r = Returned (Some (NewCommonEdgeXWrapper e))
       /\ Kind (NewCommonEdgeXWrapper e) = Kind e
       /\ calls r = validationCalls d dic ++ [CallCheckResourceCapacityByUpdateProfile d]
       /\ existsb isReplace (calls r) = false
       /\ store r = db
       /\ spawned r = [].
Proof.
  clear toBasicInfoDTO replaceBasicInfo checkCountRange.
  intros ceiling r. subst r. rewrite UpdateDeviceProfile_run. fold ceiling.
  pose proof (validationVerdict_accepts d dic) as Hacc.
  pose proof (validationCalls_not_capacity (DB := DB) d dic) as Hcap.
  pose proof (validationCalls_not_replace d dic) as Hrep.
  destruct (validationVerdict d dic) as [bad|].
  - assert (Hno : uomAccepts dic d <> true)
      by (intro H; apply Hacc in H; discriminate H).
    split.
    + cbn [calls]. rewrite Hcap. split; [discriminate|tauto].
    + intros e H. contradiction.
  - assert (Hyes : uomAccepts dic d = true) by now apply Hacc.
    destruct (Z.ltb_spec 0 ceiling) as [Hpos|Hnot].
    + split.
      * split; [tauto|intros _].
        destruct (capacityVerdict d dic db);
          [|destruct (fst _); [|destruct (snd _)]];
          cbn [calls]; rewrite existsb_app, Hcap; reflexivity.
      * intros e _ _ ->. cbn [value calls store spawned].
        repeat split. rewrite existsb_app, Hrep. reflexivity.
    + split.
      * split; [|lia].
        destruct (fst _); [|destruct (snd _)];
          cbn [calls]; rewrite existsb_app, Hcap; cbn; discriminate.
      * intros e _ H. lia.
Qed.

(** C6.  On an update whose replace was called and succeeded, the store is
    the one the replace left, and the profile is fetched again by its name
    right after the replace.  If that fetch fails the update returns its
    error (wrapped once) and schedules nothing, although the store has
    changed; if it succeeds the update returns nil and schedules one update
    event, whose payload is the fetched profile. *)
Theorem update_refetches_what_is_stored
    (d : DeviceProfile) (ctx : string) (dic : Container DB) (db : DB) :
  let dbClient := DBClientFrom dic in
  let r := Update d ctx dic db in
  let replaced := interfaces.UpdateDeviceProfile dbClient d db in
  let refetch := interfaces.DeviceProfileByName dbClient (Name d) (snd replaced) in
  In (CallUpdateDeviceProfile d) (calls r) ->
  fst replaced = None ->
  store r = snd replaced
  /\ (exists before,
        calls r = before ++ [CallUpdateDeviceProfile d; CallDeviceProfileByName (Name d)])
  /\ (forall e, snd refetch = Some e ->
        value r = Returned (Some (NewCommonEdgeXWrapper e)) /\ spawned r = [])
  /\ (snd refetch = None ->
        value r = Returned None
        /\ spawned r = [GoPublishUpdateDeviceProfileSystemEvent (toDTO (fst refetch)) ctx]).
Proof.
  intros dbClient r replaced refetch. subst r.
  rewrite UpdateDeviceProfile_run.
  fold dbClient. fold replaced. fold refetch.
  pose proof (validationCalls_not_replace d dic) as Hrep.
  assert (Hout : forall extra,
             existsb isReplace extra = false ->
             ~ In (CallUpdateDeviceProfile d) (validationCalls d dic ++ extra)).
  { intros extra Hextra. apply (not_in_when_none isReplace); [|reflexivity].
    rewrite existsb_app, Hrep. exact Hextra. }
  destruct (validationVerdict d dic) as [bad|].
  { cbn [calls]. intro Hin. exfalso.
    apply (Hout []); [reflexivity|]. now rewrite app_nil_r. }
  destruct (if 0 <? MaxResources (Writable (ConfigurationFrom dic))
            then capacityVerdict d dic db else None) as [over|].
  { cbn [calls]. intro Hin. exfalso. revert Hin. apply Hout.
    destruct (0 <? _); reflexivity. }
  intros _ Hok. rewrite Hok.
  destruct (snd refetch) as [e|] eqn:Hre; cbn [value store calls spawned].
  - split; [reflexivity|]. split.
    + eexists. rewrite app_assoc. reflexivity.
    + split; [|discriminate]. intros e' He'. injection He' as ->. auto.
  - split; [reflexivity|]. split.
    + eexists. rewrite app_assoc. reflexivity.
    + split; [discriminate|]. auto.
Qed.

(** How the target of a patch is resolved: no call and a panic when the
    payload has neither a usable id nor a name; otherwise one lookup, whose
    error is wrapped, and whose record is compared with the payload's name. *)
Lemma deviceProfileByDTO_run (dbClient : interfaces.DBClient DB)
    (dto : UpdateDeviceProfileBasicInfo) (db : DB) :
  deviceProfileByDTO (DTO := DTO) dbClient dto db
  = match resolveTarget dbClient dto db with
    | None => mkRun (Panicked nilDereference) db [] []
    | Some (deviceProfile, err) =>
        mkRun
          (Returned
             (deviceProfile,
              match err with
              | Some e => Some (NewCommonEdgeXWrapper e)
              | None =>
                  match dtoName dto with
                  | Some name =>
                      if String.eqb name (Name deviceProfile) then None
                      else Some (NewCommonEdgeX KindContractInvalid
                                   ("device profile name '" ++ name
                                      ++ "' not match the exsting '"
                                      ++ Name deviceProfile ++ "' ")%string
                                   None)
                  | None => None
                  end
              end))
          db
          [if hasId dto
           then CallDeviceProfileById (match dtoId dto with Some id => id | None => EmptyString end)
           else CallDeviceProfileByName
                  (match dtoName dto with Some name => name | None => EmptyString end)]
          []
    end.
Proof.
  unfold deviceProfileByDTO, resolveTarget, hasId, bind, query, deref.
  destruct dto as [[id|] [name|] manufacturer description model labels];
    cbn [dtoId dtoName]; try destruct (String.eqb id EmptyString); run_go;
    repeat match goal with
      | |- context [interfaces.DeviceProfileById ?c ?i ?d] =>
          destruct (interfaces.DeviceProfileById c i d) as [? [?|]]
      | |- context [interfaces.DeviceProfileByName ?c ?i ?d] =>
          destruct (interfaces.DeviceProfileByName c i d) as [? [?|]]
      end;
    run_go; try reflexivity;
    match goal with
    | |- context [String.eqb ?a ?b] => destruct (String.eqb a b); reflexivity
    end.
Qed.

(** There is nothing to resolve exactly when the payload has neither a
    usable id nor a name. *)
Lemma resolveTarget_none (dbClient : interfaces.DBClient DB)
    (dto : UpdateDeviceProfileBasicInfo) (db : DB) :
  resolveTarget dbClient dto db = None <-> hasId dto = false /\ dtoName dto = None.
Proof.
  unfold resolveTarget, hasId.
  destruct (dtoId dto) as [id|]; [destruct (String.eqb id EmptyString)|];
    destruct (dtoName dto); cbn [negb];
    (split; [intro H; try discriminate H; auto|intros [H1 H2]; try discriminate; auto]).
Qed.

(** C9.  When the id of the payload is nil or empty, [deviceProfileByDTO]
    dereferences the name pointer unguarded: with a nil name it panics
    before any call to the store.  It returns (with a record or an error)
    exactly when the payload carries a non-empty id or a non-nil name. *)
Theorem patch_target_needs_id_or_name
    (dbClient : interfaces.DBClient DB) (dto : UpdateDeviceProfileBasicInfo) (db : DB) :
  let r := deviceProfileByDTO (DTO := DTO) dbClient dto db in
  (hasId dto = false -> dtoName dto = None ->
   r = mkRun (Panicked nilDereference) db [] [])
  /\ ((exists result, value r = Returned result)
      <-> hasId dto = true \/ dtoName dto <> None)
  /\ ((exists reason, value r = Panicked reason)
      <-> hasId dto = false /\ dtoName dto = None).
Proof.
  intro r. subst r. rewrite deviceProfileByDTO_run.
  pose proof (resolveTarget_none dbClient dto db) as Hnone.
  destruct (resolveTarget dbClient dto db) as [[deviceProfile err]|]; cbn [value].
  - assert (Hsome : ~ (hasId dto = false /\ dtoName dto = None))
      by (intro H; apply Hnone in H; discriminate H).
    split; [intros Hid Hname; exfalso; auto|].
    split; split.
    + intros _. destruct (hasId dto); [left; reflexivity|].
      right. intro Hname. apply Hsome. auto.
    + intros _. eexists. reflexivity.
    + intros [reason H]. discriminate H.
    + intro H. contradiction.
  - destruct (proj1 Hnone eq_refl) as [Hid Hname].
    split; [reflexivity|].
    split; split.
    + intros [result H]. discriminate H.
    + intros [H|H]; congruence.
    + auto.
    + intros _. eexists. reflexivity.
Qed.

Lemma hasId_nonempty (dto : UpdateDeviceProfileBasicInfo) (id : string) :
  dtoId dto = Some id -> id <> EmptyString -> hasId dto = true.
Proof.
  intros Hid Hne. unfold hasId. rewrite Hid, (eqb_nonempty _ Hne). reflexivity.
Qed.

(** C5.  A patch resolves its target by id when the payload's id is non-nil
    and non-empty, and otherwise by the payload's name.  When the lookup
    succeeds and the payload carries a name different from the name of the
    record found, the patch returns an invalid-contract error (wrapped
    once); the store's replace is not called, the store is as before and no
    event is scheduled. *)
Theorem patch_rejects_name_mismatch
    (ctx : string) (dto : UpdateDeviceProfileBasicInfo) (dic : Container DB) (db : DB) :
  let dbClient := DBClientFrom dic in
  let r := Patch ctx dto dic db in
  (forall id, dtoId dto = Some id -> id <> EmptyString ->
     exists rest, calls r = CallDeviceProfileById id :: rest)
  /\ (forall name, hasId dto = false -> dtoName dto = Some name ->
        exists rest, calls r = CallDeviceProfileByName name :: rest)
  /\ (forall resolved name,
        resolveTarget dbClient dto db = Some (resolved, None) ->
        dtoName dto = Some name ->
        name <> Name resolved ->
        (exists message,
            value r = Returned (Some (NewCommonEdgeXWrapper
                                        (NewCommonEdgeX KindContractInvalid message None)))
            /\ Kind (NewCommonEdgeXWrapper
                       (NewCommonEdgeX KindContractInvalid message None))
               = KindContractInvalid)
        /\ store r = db
        /\ existsb isReplace (calls r) = false
        /\ spawned r = []).
Proof.
  intros dbClient r. subst r.
  unfold PatchDeviceProfileBasicInfo, bind.
  rewrite deviceProfileByDTO_run. fold dbClient.
  split; [|split].
  - intros id Hid Hne. rewrite (hasId_nonempty _ _ Hid Hne).
    unfold resolveTarget. rewrite (hasId_nonempty _ _ Hid Hne), Hid.
    destruct (interfaces.DeviceProfileById dbClient id db) as [deviceProfile err].
    run_go. unfold command.
    destruct err; [|destruct (dtoName dto); [destruct (String.eqb _ _)|]];
      run_go; try (eexists; reflexivity);
      destruct (fst _); run_go; eexists; reflexivity.
  - intros name Hid Hname. unfold resolveTarget. rewrite Hid, Hname.
    destruct (interfaces.DeviceProfileByName dbClient name db) as [deviceProfile err].
    run_go. unfold command.
    destruct err; [|destruct (String.eqb _ _)];
      run_go; try (eexists; reflexivity);
      destruct (fst _); run_go; eexists; reflexivity.
  - intros resolved name Hres Hname Hdiff. rewrite Hres, Hname.
    apply String.eqb_neq in Hdiff. rewrite Hdiff. run_go.
    repeat split.
    + eexists. split; reflexivity.
    + destruct (hasId dto); reflexivity.
Qed.

(** Every listing is an instance of the shared shape, once its required
    filter fields are known to be non-empty. *)
Lemma AllDeviceProfiles_shape offset limit labels (dic : Container DB) :
  AllDeviceProfiles toDTO checkCountRange offset limit labels dic
  = listingShape checkCountRange
      (CallDeviceProfileCountByLabels labels)
      (interfaces.DeviceProfileCountByLabels (DBClientFrom dic) labels)
      (CallAllDeviceProfiles offset limit labels)
      (interfaces.AllDeviceProfiles (DBClientFrom dic) offset limit labels)
      toDTO offset limit.
Proof. reflexivity. Qed.

Lemma AllDeviceProfileBasicInfos_shape offset limit labels (dic : Container DB) :
  AllDeviceProfileBasicInfos (DTO := DTO) toBasicInfoDTO checkCountRange offset limit labels dic
  = listingShape checkCountRange
      (CallDeviceProfileCountByLabels labels)
      (interfaces.DeviceProfileCountByLabels (DBClientFrom dic) labels)
      (CallAllDeviceProfiles offset limit labels)
      (interfaces.AllDeviceProfiles (DBClientFrom dic) offset limit labels)
      toBasicInfoDTO offset limit.
Proof. reflexivity. Qed.

Lemma DeviceProfilesByModel_shape offset limit model (dic : Container DB) :
  model <> EmptyString ->
  DeviceProfilesByModel toDTO checkCountRange offset limit model dic
  = listingShape checkCountRange
      (CallDeviceProfileCountByModel model)
      (interfaces.DeviceProfileCountByModel (DBClientFrom dic) model)
      (CallDeviceProfilesByModel offset limit model)
      (interfaces.DeviceProfilesByModel (DBClientFrom dic) offset limit model)
      toDTO offset limit.
Proof.
  intro H. unfold DeviceProfilesByModel. now rewrite (eqb_nonempty _ H).
Qed.

Lemma DeviceProfilesByManufacturer_shape offset limit manufacturer (dic : Container DB) :
  manufacturer <> EmptyString ->
  DeviceProfilesByManufacturer toDTO checkCountRange offset limit manufacturer dic
  = listingShape checkCountRange
      (CallDeviceProfileCountByManufacturer manufacturer)
      (interfaces.DeviceProfileCountByManufacturer (DBClientFrom dic) manufacturer)
      (CallDeviceProfilesByManufacturer offset limit manufacturer)
      (interfaces.DeviceProfilesByManufacturer (DBClientFrom dic) offset limit manufacturer)
      toDTO offset limit.
Proof.
  intro H. unfold DeviceProfilesByManufacturer. now rewrite (eqb_nonempty _ H).
Qed.

Lemma DeviceProfilesByManufacturerAndModel_shape
    offset limit manufacturer model (dic : Container DB) :
  manufacturer <> EmptyString ->
  model <> EmptyString ->
  DeviceProfilesByManufacturerAndModel toDTO checkCountRange offset limit
    manufacturer model dic
  = listingShape checkCountRange
      (CallDeviceProfileCountByManufacturerAndModel manufacturer model)
      (interfaces.DeviceProfileCountByManufacturerAndModel (DBClientFrom dic)
         manufacturer model)
      (CallDeviceProfilesByManufacturerAndModel offset limit manufacturer model)
      (interfaces.DeviceProfilesByManufacturerAndModel (DBClientFrom dic) offset limit
         manufacturer model)
      toDTO offset limit.
Proof.
  intros Hman Hmod. unfold DeviceProfilesByManufacturerAndModel.
  now rewrite (eqb_nonempty _ Hman), (eqb_nonempty _ Hmod).
Qed.

Lemma listingShape_contract {A : Type} countCall count pageCall page
    (project : DeviceProfile -> A) (offset limit : Z) (db : DB) :
  listingContract checkCountRange
    (listingShape (DTO := DTO) checkCountRange countCall count pageCall page project
       offset limit db)
    countCall (count db) offset limit db.
Proof.
  unfold listingContract, listingShape, bind, query. run_go.
  destruct (count db) as [totalCount [cerr|]]; run_go.
  { split; [eauto|]. split; [reflexivity|]. intro H. discriminate H. }
  destruct (checkCountRange totalCount offset limit) as [[|] rerr]; run_go.
  - destruct (page db) as [dps [perr|]]; run_go;
      (split; [eauto|]; split; [reflexivity|]; intros _ err H; discriminate H).
  - split; [eauto|]. split; [reflexivity|].
    intros _ err H. injection H as ->. split; reflexivity.
Qed.

(** X24.  Under any range check: for each listing called with non-empty
    required filter fields, the total returned is the total the store's count query answered, on every
    path; and when the range check reports that the window cannot be
    served, the listing returns the empty page with that total and with
    the error the check reports (none in the degenerate case), after the
    count query alone. *)
Theorem listing_returns_counted_total
    (offset limit : Z) (labels : list string) (manufacturer model : string)
    (dic : Container DB) (db : DB) :
  manufacturer <> EmptyString ->
  model <> EmptyString ->
  let dbClient := DBClientFrom dic in
  listingContract checkCountRange
    (AllDeviceProfiles toDTO checkCountRange offset limit labels dic db)
    (CallDeviceProfileCountByLabels labels)
    (interfaces.DeviceProfileCountByLabels dbClient labels db) offset limit db
  /\ listingContract checkCountRange
       (DeviceProfilesByModel toDTO checkCountRange offset limit model dic db)
       (CallDeviceProfileCountByModel model)
       (interfaces.DeviceProfileCountByModel dbClient model db) offset limit db
  /\ listingContract checkCountRange
       (DeviceProfilesByManufacturer toDTO checkCountRange offset limit manufacturer dic db)
       (CallDeviceProfileCountByManufacturer manufacturer)
       (interfaces.DeviceProfileCountByManufacturer dbClient manufacturer db)
       offset limit db
  /\ listingContract checkCountRange
       (DeviceProfilesByManufacturerAndModel toDTO checkCountRange offset limit
          manufacturer model dic db)
       (CallDeviceProfileCountByManufacturerAndModel manufacturer model)
       (interfaces.DeviceProfileCountByManufacturerAndModel dbClient manufacturer model db)
       offset limit db
  /\ listingContract checkCountRange
       (AllDeviceProfileBasicInfos (DTO := DTO) toBasicInfoDTO checkCountRange
          offset limit labels dic db)
       (CallDeviceProfileCountByLabels labels)
       (interfaces.DeviceProfileCountByLabels dbClient labels db) offset limit db.
Proof.
  intros Hman Hmod dbClient. subst dbClient.
  rewrite AllDeviceProfiles_shape, AllDeviceProfileBasicInfos_shape,
    (DeviceProfilesByModel_shape _ _ _ _ Hmod),
    (DeviceProfilesByManufacturer_shape _ _ _ _ Hman),
    (DeviceProfilesByManufacturerAndModel_shape _ _ _ _ _ Hman Hmod).
  split; [|split; [|split; [|split]]]; apply listingShape_contract.
Qed.

End Claims.

(** ** The theorems at concrete inputs, over the in-memory store *)

(** C1 at a profile used by one device, and at one used by one provision
    watcher. *)
Lemma referenced_profile_is_not_deleted_witness :
  (let r := DeleteDeviceProfileByName MemStore.toDTO "Temp-Sensor-X" "corr-1"
              (MemStore.container true 0 false) MemStore.withDevice in
   (exists message,
       value r = Returned (Some (NewCommonEdgeX KindStatusConflict message None)))
   /\ existsb isDelete (calls r) = false
   /\ store r = MemStore.withDevice
   /\ spawned r = []
   /\ exists rest,
        calls r = CallDeviceProfileByName "Temp-Sensor-X"
                    :: CallDevicesByProfileName 0 1 "Temp-Sensor-X" :: rest
        /\ (rest = [] \/ rest = [CallProvisionWatchersByProfileName 0 1 "Temp-Sensor-X"]))
  /\ (let r := DeleteDeviceProfileByName MemStore.toDTO "Temp-Sensor-X" "corr-1"
                 (MemStore.container true 0 false) MemStore.withWatcher in
      (exists message,
          value r = Returned (Some (NewCommonEdgeX KindStatusConflict message None)))
      /\ existsb isDelete (calls r) = false
      /\ store r = MemStore.withWatcher
      /\ spawned r = []
      /\ exists rest,
           calls r = CallDeviceProfileByName "Temp-Sensor-X"
                       :: CallDevicesByProfileName 0 1 "Temp-Sensor-X" :: rest
           /\ (rest = [] \/ rest = [CallProvisionWatchersByProfileName 0 1 "Temp-Sensor-X"])).
Proof.
  split.
  - apply (referenced_profile_is_not_deleted MemStore.toDTO "Temp-Sensor-X" "corr-1"
             (MemStore.container true 0 false) MemStore.withDevice).
    + reflexivity.
    + discriminate.
    + reflexivity.
    + left. split; [reflexivity|]. vm_compute. discriminate.
  - apply (referenced_profile_is_not_deleted MemStore.toDTO "Temp-Sensor-X" "corr-1"
             (MemStore.container true 0 false) MemStore.withWatcher).
    + reflexivity.
    + discriminate.
    + reflexivity.
    + right. split; [reflexivity|]. split; [reflexivity|]. vm_compute. discriminate.
Defined.

(** C1 fails as stated when strict deletes are enabled: the profile exists
    and a device uses it, and the delete is refused with a service-locked
    error, not a status-conflict one. *)
Lemma referenced_profile_under_strict_deletes :
  let dic := MemStore.container true 0 true in
  let r := DeleteDeviceProfileByName MemStore.toDTO "Temp-Sensor-X" "corr-1" dic
             MemStore.withDevice in
  profileExists dic "Temp-Sensor-X" MemStore.withDevice
  /\ probeFinds (deviceProbe dic "Temp-Sensor-X" MemStore.withDevice)
  /\ (exists e, value r = Returned (Some e) /\ Kind e = KindServiceLocked)
  /\ ~ (exists e, value r = Returned (Some e) /\ Kind e = KindStatusConflict).
Proof.
  cbv zeta. split; [reflexivity|].
  split; [split; [reflexivity|vm_compute; discriminate]|].
  split.
  - eexists. split; reflexivity.
  - intros (e & He & Hk). vm_compute in He. injection He as <-. discriminate Hk.
Qed.

(** C2 at a profile whose only resource has an unknown unit, with validation
    enabled. *)
Lemma uom_validation_guards_add_and_update_witness :
  let d := MemStore.tempSensor "Furlong" in
  let dic := MemStore.container true 0 false in
  let uom := UnitsOfMeasureFrom dic in
  exists pre dr post,
    DeviceResources d = pre ++ dr :: post
    /\ Forall (fun r => Validate uom (Units (Properties r)) = true) pre
    /\ Validate uom (Units (Properties dr)) = false
    /\ Kind (NewCommonEdgeXWrapper (invalidUnits dr)) = KindContractInvalid
    /\ Message (NewCommonEdgeXWrapper (invalidUnits dr)) = invalidUnitsMessage dr
    /\ AddDeviceProfile MemStore.toDTO d "corr-1" dic MemStore.onlyProfile
       = mkRun (Returned (EmptyString, Some (NewCommonEdgeXWrapper (invalidUnits dr))))
           MemStore.onlyProfile (map callValidate (pre ++ [dr])) []
    /\ UpdateDeviceProfile MemStore.toDTO MemStore.capacity d "corr-1" dic
         MemStore.onlyProfile
       = mkRun (Returned (Some (NewCommonEdgeXWrapper (invalidUnits dr))))
           MemStore.onlyProfile (map callValidate (pre ++ [dr])) []
    /\ existsb isStoreCall (map callValidate (pre ++ [dr])) = false.
Proof.
  apply (proj1 (uom_validation_guards_add_and_update MemStore.toDTO MemStore.capacity
                  (MemStore.tempSensor "Furlong") "corr-1"
                  (MemStore.container true 0 false) MemStore.onlyProfile)).
  - reflexivity.
  - eexists. split; [left; reflexivity|reflexivity].
Defined.

(** C3 at a profile that a device uses. *)
Lemma strict_deletes_lock_before_any_check_witness :
  DeleteDeviceProfileByName MemStore.toDTO "Temp-Sensor-X" "corr-1"
    (MemStore.container true 0 true) MemStore.withDevice
  = mkRun
      (Returned
         (Some (NewCommonEdgeX KindServiceLocked
                  "profile deletion is not allowed when StrictDeviceProfileDeletes config is enabled"
                  None)))
      MemStore.withDevice [] [].
Proof.
  apply (strict_deletes_lock_before_any_check MemStore.toDTO "Temp-Sensor-X" "corr-1"
           (MemStore.container true 0 true) MemStore.withDevice).
  reflexivity.
Defined.

(** C4 at a profile of three resources under a ceiling of two. *)
Lemma capacity_check_runs_after_validation_witness :
  let dic := MemStore.container true 2 false in
  let e := NewCommonEdgeX KindStatusConflict
             "the total number of resources exceeds MaxResources" None in
  let r := UpdateDeviceProfile MemStore.toDTO MemStore.capacity MemStore.weatherStation
             "corr-1" dic MemStore.twoProfiles in
  value r = Returned (Some (NewCommonEdgeXWrapper e))
  /\ Kind (NewCommonEdgeXWrapper e) = Kind e
  /\ calls r = validationCalls MemStore.weatherStation dic
                ++ [CallCheckResourceCapacityByUpdateProfile MemStore.weatherStation]
  /\ existsb isReplace (calls r) = false
  /\ store r = MemStore.twoProfiles
  /\ spawned r = [].
Proof.
  apply (proj2 (capacity_check_runs_after_validation MemStore.toDTO MemStore.capacity
                  MemStore.weatherStation "corr-1" (MemStore.container true 2 false)
                  MemStore.twoProfiles)).
  - reflexivity.
  - reflexivity.
  - reflexivity.
Defined.

(** C4 fails as stated when UoM validation rejects the profile: the ceiling
    is greater than 0 and the capacity check does not run. *)
Lemma capacity_check_skipped_on_invalid_units :
  let dic := MemStore.container true 5 false in
  let r := UpdateDeviceProfile MemStore.toDTO MemStore.capacity
             (MemStore.tempSensor "Furlong") "corr-1" dic MemStore.onlyProfile in
  0 < MaxResources (Writable (ConfigurationFrom dic))
  /\ existsb isCapacityCheck (calls r) = false
  /\ calls r = [CallValidate "Furlong"]
  /\ ~ (existsb isCapacityCheck (calls r) = true
        <-> 0 < MaxResources (Writable (ConfigurationFrom dic))).
Proof.
  cbv zeta. split; [reflexivity|]. split; [reflexivity|]. split; [reflexivity|].
  intros [_ H]. specialize (H eq_refl). vm_compute in H. discriminate H.
Qed.

(** C5 at a payload that selects the stored profile by id and carries
    another name. *)
Lemma patch_rejects_name_mismatch_witness :
  let dto := MemStore.patchOf (Some "id-1") (Some "Temp-Sensor-Y") in
  let r := PatchDeviceProfileBasicInfo MemStore.toDTO MemStore.replaceBasicInfo "corr-1"
             dto (MemStore.container true 0 false) MemStore.onlyProfile in
  (exists message,
      value r = Returned (Some (NewCommonEdgeXWrapper
                                  (NewCommonEdgeX KindContractInvalid message None)))
      /\ Kind (NewCommonEdgeXWrapper (NewCommonEdgeX KindContractInvalid message None))
         = KindContractInvalid)
  /\ store r = MemStore.onlyProfile
  /\ existsb isReplace (calls r) = false
  /\ spawned r = [].
Proof.
  apply (proj2 (proj2 (patch_rejects_name_mismatch MemStore.toDTO MemStore.replaceBasicInfo
                         "corr-1" (MemStore.patchOf (Some "id-1") (Some "Temp-Sensor-Y"))
                         (MemStore.container true 0 false) MemStore.onlyProfile))
           (MemStore.tempSensor "Celsius") "Temp-Sensor-Y").
  - reflexivity.
  - reflexivity.
  - discriminate.
Defined.

(** C6 at an update whose input carries another id than the stored one:
    the store keeps its id, and the event carries the stored profile. *)
Lemma update_refetches_what_is_stored_witness :
  let d := MemStore.withId "id-from-caller" (MemStore.tempSensor "Percent") in
  let stored := MemStore.withId "id-1" (MemStore.tempSensor "Percent") in
  let r := UpdateDeviceProfile MemStore.toDTO MemStore.capacity d "corr-1"
             (MemStore.container true 5 false) MemStore.onlyProfile in
  (value r = Returned None
   /\ spawned r = [GoPublishUpdateDeviceProfileSystemEvent stored "corr-1"])
  /\ stored <> d.
Proof.
  split.
  - refine (proj2 (proj2 (proj2
             (update_refetches_what_is_stored MemStore.toDTO MemStore.capacity
                (MemStore.withId "id-from-caller" (MemStore.tempSensor "Percent")) "corr-1"
                (MemStore.container true 5 false) MemStore.onlyProfile _ _))) _).
    + vm_compute. do 2 right. left. reflexivity.
    + reflexivity.
    + reflexivity.
  - discriminate.
Defined.

(** X24 at a window that starts beyond the only matching profile, and at
    a window of limit 0, under the range check of the in-memory store. *)
Lemma listing_returns_counted_total_witness :
  let dic := MemStore.container true 0 false in
  let db := MemStore.onlyProfile in
  listingContract MemStore.checkCountRange
    (AllDeviceProfiles MemStore.toDTO MemStore.checkCountRange 3 10 [] dic db)
    (CallDeviceProfileCountByLabels []) (1, None) 3 10 db
  /\ listingContract MemStore.checkCountRange
       (DeviceProfilesByModel MemStore.toDTO MemStore.checkCountRange 0 0 "T1000" dic db)
       (CallDeviceProfileCountByModel "T1000") (1, None) 0 0 db
  /\ value (DeviceProfilesByModel MemStore.toDTO MemStore.checkCountRange 0 0 "T1000" dic db)
     = Returned ([], 1, None).
Proof.
  split; [|split].
  - apply (listing_returns_counted_total MemStore.toDTO MemStore.toBasicInfoDTO
             MemStore.checkCountRange 3 10 [] "Acme" "T1000"
             (MemStore.container true 0 false) MemStore.onlyProfile);
      discriminate.
  - apply (listing_returns_counted_total MemStore.toDTO MemStore.toBasicInfoDTO
             MemStore.checkCountRange 0 0 [] "Acme" "T1000"
             (MemStore.container true 0 false) MemStore.onlyProfile);
      discriminate.
  - reflexivity.
Defined.

(** C9 at a payload with an empty id and no name, and at one with a name. *)
Lemma patch_target_needs_id_or_name_witness :
  deviceProfileByDTO (DTO := DeviceProfile) MemStore.client
    (MemStore.patchOf (Some EmptyString) None) MemStore.onlyProfile
  = mkRun (Panicked nilDereference) MemStore.onlyProfile [] []
  /\ exists result,
       value (deviceProfileByDTO (DTO := DeviceProfile) MemStore.client
                (MemStore.patchOf None (Some "Temp-Sensor-X")) MemStore.onlyProfile)
       = Returned result.
Proof.
  split.
  - apply (patch_target_needs_id_or_name MemStore.client
             (MemStore.patchOf (Some EmptyString) None) MemStore.onlyProfile);
      reflexivity.
  - apply (patch_target_needs_id_or_name MemStore.client
             (MemStore.patchOf None (Some "Temp-Sensor-X")) MemStore.onlyProfile).
    right. discriminate.
Defined.

(** The examples of the specification, run on the in-memory store: adding
    a profile with a valid unit returns its id, stores it under its name
    and schedules one add event. *)
Example add_valid_profile_runs :
  let r := AddDeviceProfile MemStore.toDTO (MemStore.tempSensor "Celsius") "corr-1"
             (MemStore.container true 0 false) (MemStore.mk [] [] []) in
  value r = Returned ("id-1", None)
  /\ interfaces.DeviceProfileByName MemStore.client "Temp-Sensor-X" (store r)
     = (MemStore.tempSensor "Celsius", None)
  /\ calls r = [CallValidate "Celsius"; CallAddDeviceProfile (MemStore.tempSensor "Celsius")]
  /\ spawned r = [GoPublishSystemEvent DeviceProfileSystemEventType SystemEventActionAdd
                    CoreMetaDataServiceKey (MemStore.tempSensor "Celsius") "corr-1"].
Proof. repeat split. Qed.

(** Deleting an unreferenced profile goes through all five gates, deletes
    and schedules one delete event with the profile as it was. *)
Example delete_unreferenced_profile_runs :
  DeleteDeviceProfileByName MemStore.toDTO "Temp-Sensor-X" "corr-1"
    (MemStore.container true 0 false) MemStore.onlyProfile
  = mkRun (Returned None) (MemStore.mk [] [] [])
      [CallDeviceProfileByName "Temp-Sensor-X";
       CallDevicesByProfileName 0 1 "Temp-Sensor-X";
       CallProvisionWatchersByProfileName 0 1 "Temp-Sensor-X";
       CallDeleteDeviceProfileByName "Temp-Sensor-X"]
      [GoPublishSystemEvent DeviceProfileSystemEventType SystemEventActionDelete
         CoreMetaDataServiceKey (MemStore.tempSensor "Celsius") "corr-1"].
Proof. reflexivity. Qed.

(** ** The remaining paths of the application functions *)

Section PathLemmas.
Context {DB : Type}.

Lemma visited_all uom drs :
  forallb (fun dr => Validate uom (Units (Properties dr))) drs = true ->
  visited uom drs = drs.
Proof.
  induction drs as [|dr rest IH]; cbn [visited forallb]; [reflexivity|].
  intro H. apply andb_true_iff in H as [Hdr Hrest].
  unfold rejected. rewrite Hdr. cbn [negb]. now rewrite IH.
Qed.

Lemma first_rejected_of_split uom (pre : list DeviceResource) dr post :
  Forall (fun r => Validate uom (Units (Properties r)) = true) pre ->
  Validate uom (Units (Properties dr)) = false ->
  find (rejected uom) (pre ++ dr :: post) = Some dr
  /\ visited uom (pre ++ dr :: post) = pre ++ [dr].
Proof.
  intros Hpre Hdr.
  induction Hpre as [|a pre Ha Hpre IH]; cbn [app find visited]; unfold rejected at 1 3.
  - rewrite Hdr. cbn [negb]. split; reflexivity.
  - rewrite Ha. cbn [negb]. destruct IH as [-> ->]. split; reflexivity.
Qed.

Lemma validationCalls_no_add (p d : DeviceProfile) (dic : Container DB) :
  ~ In (CallAddDeviceProfile d) (validationCalls p dic).
Proof.
  unfold validationCalls. destruct (Validation _); [|cbn; tauto].
  induction (visited _ _); cbn; [tauto|]. intros [H|H]; [discriminate H|auto].
Qed.

Lemma validationCalls_only_validate (p : DeviceProfile) (dic : Container DB) (c : Call) :
  In c (validationCalls p dic) -> isValidate c = true.
Proof.
  unfold validationCalls. destruct (Validation _); [|cbn; tauto].
  induction (visited _ _); cbn; [tauto|]. intros [<-|H]; [reflexivity|auto].
Qed.

End PathLemmas.

Section Paths.
Context {DB DTO BasicInfoDTO : Type}.
Variable toDTO : DeviceProfile -> DTO.
Variable toBasicInfoDTO : DeviceProfile -> BasicInfoDTO.
Variable replaceBasicInfo :
  DeviceProfile -> UpdateDeviceProfileBasicInfo -> DeviceProfile.
Variable checkCountRange : Z -> Z -> Z -> bool * option EdgeX.
Variable capacityVerdict : DeviceProfile -> Container DB -> DB -> option EdgeX.

Local Abbreviation Add := (AddDeviceProfile toDTO).
Local Abbreviation Update := (UpdateDeviceProfile toDTO capacityVerdict).
Local Abbreviation Delete := (DeleteDeviceProfileByName toDTO).
Local Abbreviation Patch := (PatchDeviceProfileBasicInfo toDTO replaceBasicInfo).
Local Abbreviation Lookup := (DeviceProfileByName toDTO).

(** X6.  UoM validation returns nil exactly when validation is disabled or
    the validator accepts the units of every resource, and never changes
    the store or schedules anything.  With validation disabled it calls
    nothing.  With validation enabled it asks the validator about the
    resources in order, once each, and stops at the first one rejected:
    if all are accepted the calls are one per resource; if [dr] is the
    first rejected one, the calls are those for the resources before it
    and for [dr], none for the resources after it, and the error returned
    is the invalid-contract error built for [dr]. *)
Theorem uom_validation_verdict (d : DeviceProfile) (dic : Container DB) (db : DB) :
  let r := deviceProfileUoMValidation (DTO := DTO) d dic db in
  let uom := UnitsOfMeasureFrom dic in
  let enabled := Validation (UoM (Writable (ConfigurationFrom dic))) in
  (value r = Returned None <-> uomAccepts dic d = true)
  /\ store r = db
  /\ spawned r = []
  /\ (enabled = false -> value r = Returned None /\ calls r = [])
  /\ (enabled = true -> uomAccepts dic d = true ->
      calls r = map callValidate (DeviceResources d))
  /\ (enabled = true ->
      forall pre dr post,
        DeviceResources d = pre ++ dr :: post ->
        Forall (fun res => Validate uom (Units (Properties res)) = true) pre ->
        Validate uom (Units (Properties dr)) = false ->
        value r = Returned (Some (NewCommonEdgeX KindContractInvalid
                                    (invalidUnitsMessage dr) None))
        /\ calls r = map callValidate (pre ++ [dr])).
Proof.
  intros r uom enabled. subst r uom enabled.
  rewrite deviceProfileUoMValidation_run. cbn [value store calls spawned].
  split.
  { rewrite <- validationVerdict_accepts. split; [intro H; now injection H|now intros ->]. }
  split; [reflexivity|]. split; [reflexivity|].
  unfold validationVerdict, validationCalls, uomAccepts.
  destruct (Validation (UoM (Writable (ConfigurationFrom dic)))); cbn [negb orb].
  - split; [discriminate|]. split.
    + intros _ Hall. now rewrite (visited_all _ _ Hall).
    + intros _ pre dr post Hsplit Hpre Hdr. rewrite Hsplit.
      destruct (first_rejected_of_split _ pre dr post Hpre Hdr) as [-> ->].
      split; reflexivity.
  - split; [auto|]. split; discriminate.
Qed.

(** How an add runs. *)
Lemma AddDeviceProfile_run (d : DeviceProfile) (ctx : string) (dic : Container DB) (db : DB) :
  let added := interfaces.AddDeviceProfile (DBClientFrom dic) d db in
  Add d ctx dic db
  = match validationVerdict d dic with
    | Some e =>
        mkRun (Returned (EmptyString, Some (NewCommonEdgeXWrapper e))) db
          (validationCalls d dic) []
    | None =>
        match snd (fst added) with
        | Some e =>
            mkRun (Returned (EmptyString, Some (NewCommonEdgeXWrapper e))) (snd added)
              (validationCalls d dic ++ [CallAddDeviceProfile d]) []
        | None =>
            mkRun (Returned (Id (fst (fst added)), None)) (snd added)
              (validationCalls d dic ++ [CallAddDeviceProfile d])
              [GoPublishSystemEvent DeviceProfileSystemEventType SystemEventActionAdd
                 CoreMetaDataServiceKey (toDTO (fst (fst added))) ctx]
        end
    end.
Proof.
  intro added. unfold AddDeviceProfile, bind.
  rewrite deviceProfileUoMValidation_run. run_go.
  destruct (validationVerdict d dic) as [e|]; run_go.
  { rewrite ?app_nil_r; reflexivity. }
  unfold command, go. run_go. fold added.
  destruct added as [[stored [e|]] db']; run_go; reflexivity.
Qed.

(** X7.  An add calls the store's insert exactly when UoM validation
    lets the profile through, and then once, as its last call.  Without
    the insert the store is as before and nothing is scheduled. *)
Theorem add_inserts_iff_validation_passes
    (d : DeviceProfile) (ctx : string) (dic : Container DB) (db : DB) :
  let r := Add d ctx dic db in
  (In (CallAddDeviceProfile d) (calls r) <-> uomAccepts dic d = true)
  /\ (uomAccepts dic d = true ->
      calls r = validationCalls d dic ++ [CallAddDeviceProfile d])
  /\ (uomAccepts dic d = false ->
      store r = db /\ spawned r = [] /\ existsb isWrite (calls r) = false).
Proof.
  clear toBasicInfoDTO replaceBasicInfo checkCountRange capacityVerdict.
  intro r. subst r. rewrite AddDeviceProfile_run.
  pose proof (validationVerdict_accepts d dic) as Hacc.
  destruct (validationVerdict d dic) as [bad|]; cbn [calls store spawned].
  - assert (Hno : uomAccepts dic d = false).
    { destruct (uomAccepts dic d); [|reflexivity].
      destruct Hacc as [_ H]. specialize (H eq_refl). discriminate H. }
    rewrite Hno. split; [|split].
    + split; [|discriminate]. intro H. now apply validationCalls_no_add in H.
    + discriminate.
    + intros _. repeat split.
      unfold validationCalls. destruct (Validation _); [|reflexivity].
      induction (visited _ _); cbn; auto.
  - assert (Hyes : uomAccepts dic d = true) by now apply Hacc.
    rewrite Hyes.
    assert (Hin : In (CallAddDeviceProfile d)
                    (validationCalls d dic ++ [CallAddDeviceProfile d]))
      by (apply in_or_app; right; left; reflexivity).
    destruct (snd (fst _)); cbn [calls];
      (split; [tauto|split; [reflexivity|discriminate]]).
Qed.

(** X8.  When validation passes, an add that the store accepts returns
    the id of the profile as the store returned it, leaves the store the
    insert produced and schedules one add event carrying that profile;
    an add that the store refuses returns the empty id and the store's
    error wrapped once, with its kind, and schedules nothing. *)
Theorem add_returns_stored_id_or_store_error
    (d : DeviceProfile) (ctx : string) (dic : Container DB) (db : DB) :
  let r := Add d ctx dic db in
  let added := interfaces.AddDeviceProfile (DBClientFrom dic) d db in
  uomAccepts dic d = true ->
  store r = snd added
  /\ (snd (fst added) = None ->
      value r = Returned (Id (fst (fst added)), None)
      /\ spawned r = [GoPublishSystemEvent DeviceProfileSystemEventType
                        SystemEventActionAdd CoreMetaDataServiceKey
                        (toDTO (fst (fst added))) ctx])
  /\ (forall e, snd (fst added) = Some e ->
        value r = Returned (EmptyString, Some (NewCommonEdgeXWrapper e))
        /\ Kind (NewCommonEdgeXWrapper e) = Kind e
        /\ spawned r = []).
Proof.
  intros r added Hacc. subst r. rewrite AddDeviceProfile_run. fold added.
  apply validationVerdict_accepts in Hacc. rewrite Hacc.
  destruct (snd (fst added)) as [e|]; cbn [value store spawned].
  - split; [reflexivity|]. split; [discriminate|].
    intros e' He. injection He as ->. repeat split.
  - split; [reflexivity|]. split; [auto|]. discriminate.
Qed.

(** X9.  An update calls the store's replace exactly when UoM
    validation lets the profile through and the capacity gate allows it
    (no ceiling configured, or the checker reports no error).  Without the
    replace the store is as before and nothing is scheduled. *)
Theorem update_replaces_iff_gates_pass
    (d : DeviceProfile) (ctx : string) (dic : Container DB) (db : DB) :
  let r := Update d ctx dic db in
  (In (CallUpdateDeviceProfile d) (calls r)
     <-> uomAccepts dic d = true /\ capacityAllows capacityVerdict dic d db)
  /\ (~ In (CallUpdateDeviceProfile d) (calls r) ->
      store r = db /\ spawned r = [] /\ existsb isWrite (calls r) = false).
Proof.
  intro r. subst r. rewrite (UpdateDeviceProfile_run toDTO capacityVerdict).
  unfold capacityAllows.
  pose proof (validationVerdict_accepts d dic) as Hacc.
  assert (Hval : forall extra,
             existsb isWrite extra = false ->
             existsb isWrite (validationCalls d dic ++ extra) = false).
  { intros extra He. rewrite existsb_app, He, orb_false_r.
    destruct (existsb isWrite (validationCalls d dic)) eqn:Hx; [|reflexivity].
    apply existsb_exists in Hx as (c & Hin & Hw).
    apply validationCalls_only_validate in Hin. destruct c; discriminate. }
  assert (Hnot : forall extra,
             existsb isWrite extra = false ->
             ~ In (CallUpdateDeviceProfile d) (validationCalls d dic ++ extra)).
  { intros extra He. apply (not_in_when_none isWrite); [auto|reflexivity]. }
  assert (Hin : forall pre post,
             In (CallUpdateDeviceProfile d)
               (validationCalls d dic ++ pre ++ CallUpdateDeviceProfile d :: post)).
  { intros. apply in_or_app. right. apply in_or_app. right. left. reflexivity. }
  destruct (validationVerdict d dic) as [bad|]; cbn [calls store spawned].
  { split.
    - split.
      + intro H. exfalso. apply (Hnot []); [reflexivity|]. now rewrite app_nil_r.
      + intros [H _]. apply Hacc in H. discriminate H.
    - intros _. repeat split. specialize (Hval [] eq_refl). now rewrite app_nil_r in Hval. }
  assert (Hyes : uomAccepts dic d = true) by now apply Hacc.
  destruct (Z.ltb_spec 0 (MaxResources (Writable (ConfigurationFrom dic)))) as [Hpos|Hle].
  - destruct (capacityVerdict d dic db) as [over|] eqn:Hcap; cbn [calls store spawned].
    + split.
      * split; [intro H; exfalso; revert H; apply Hnot; reflexivity|].
        intros [_ H]. specialize (H Hpos). discriminate H.
      * intros _. repeat split. apply Hval. reflexivity.
    + split.
      * split; [intros _; split; auto|intros _].
        destruct (fst _); [|destruct (snd _)]; cbn [calls]; apply Hin.
      * intro H. exfalso. apply H.
        destruct (fst _); [|destruct (snd _)]; cbn [calls]; apply Hin.
  - split.
    + split; [intros _; split; [auto|intro; lia]|intros _].
      destruct (fst _); [|destruct (snd _)]; cbn [calls]; apply (Hin []).
    + intro H. exfalso. apply H.
      destruct (fst _); [|destruct (snd _)]; cbn [calls]; apply (Hin []).
Qed.

(** X10.  When the replace of an update was called and the store refused
    it, the update returns the store's error wrapped once, with its kind;
    the profile is not fetched again and nothing is scheduled. *)
Theorem update_stops_at_failed_replace
    (d : DeviceProfile) (ctx : string) (dic : Container DB) (db : DB) (e : EdgeX) :
  let r := Update d ctx dic db in
  let replaced := interfaces.UpdateDeviceProfile (DBClientFrom dic) d db in
  In (CallUpdateDeviceProfile d) (calls r) ->
  fst replaced = Some e ->
  value r = Returned (Some (NewCommonEdgeXWrapper e))
  /\ Kind (NewCommonEdgeXWrapper e) = Kind e
  /\ store r = snd replaced
  /\ spawned r = []
  /\ (exists before, calls r = before ++ [CallUpdateDeviceProfile d])
  /\ ~ In (CallDeviceProfileByName (Name d)) (calls r).
Proof.
  clear toBasicInfoDTO replaceBasicInfo checkCountRange.
  intros r replaced. subst r. rewrite (UpdateDeviceProfile_run toDTO capacityVerdict).
  fold replaced.
  pose proof (validationCalls_not_replace d dic) as Hrep.
  assert (Hout : forall extra,
             existsb isReplace extra = false ->
             ~ In (CallUpdateDeviceProfile d) (validationCalls d dic ++ extra)).
  { intros extra Hextra. apply (not_in_when_none isReplace); [|reflexivity].
    rewrite existsb_app, Hrep. exact Hextra. }
  destruct (validationVerdict d dic) as [bad|].
  { cbn [calls]. intro Hin. exfalso.
    apply (Hout []); [reflexivity|]. now rewrite app_nil_r. }
  destruct (if 0 <? MaxResources (Writable (ConfigurationFrom dic))
            then capacityVerdict d dic db else None) as [over|].
  { cbn [calls]. intro Hin. exfalso. revert Hin. apply Hout.
    destruct (0 <? _); reflexivity. }
  intros _ Hfail. rewrite Hfail. cbn [value store calls spawned].
  repeat split.
  - eexists. rewrite app_assoc. reflexivity.
  - intro Hin. apply in_app_or in Hin as [Hin|Hin].
    + apply validationCalls_only_validate in Hin. discriminate Hin.
    + destruct (0 <? _); cbn in Hin; intuition discriminate.
Qed.

(** How a delete runs once the strict-deletes flag is off and the name is
    not empty: the lookup, the device probe, the watcher probe, the delete,
    each only if the one before let it through. *)
Lemma DeleteDeviceProfileByName_run (name ctx : string) (dic : Container DB) (db : DB) :
  let found := interfaces.DeviceProfileByName (DBClientFrom dic) name db in
  let devices := deviceProbe dic name db in
  let watchers := watcherProbe dic name db in
  let deleted := interfaces.DeleteDeviceProfileByName (DBClientFrom dic) name db in
  let lookup := CallDeviceProfileByName name in
  let probe1 := CallDevicesByProfileName 0 1 name in
  let probe2 := CallProvisionWatchersByProfileName 0 1 name in
  StrictDeviceProfileDeletes (ProfileChange (Writable (ConfigurationFrom dic))) = false ->
  name <> EmptyString ->
  Delete name ctx dic db
  = match snd found with
    | Some e => mkRun (Returned (Some (NewCommonEdgeXWrapper e))) db [lookup] []
    | None =>
        match snd devices with
        | Some e => mkRun (Returned (Some (NewCommonEdgeXWrapper e))) db [lookup; probe1] []
        | None =>
            match fst devices with
            | _ :: _ =>
                mkRun (Returned (Some (NewCommonEdgeX KindStatusConflict
                         "fail to delete the device profile when associated device exists"
                         None)))
                  db [lookup; probe1] []
            | [] =>
                match snd watchers with
                | Some e =>
                    mkRun (Returned (Some (NewCommonEdgeXWrapper e))) db
                      [lookup; probe1; probe2] []
                | None =>
                    match fst watchers with
                    | _ :: _ =>
                        mkRun (Returned (Some (NewCommonEdgeX KindStatusConflict
                                 "fail to delete the device profile when associated provisionWatcher exists"
                                 None)))
                          db [lookup; probe1; probe2] []
                    | [] =>
                        match fst deleted with
                        | Some e =>
                            mkRun (Returned (Some (NewCommonEdgeXWrapper e))) (snd deleted)
                              [lookup; probe1; probe2; CallDeleteDeviceProfileByName name] []
                        | None =>
                            mkRun (Returned None) (snd deleted)
                              [lookup; probe1; probe2; CallDeleteDeviceProfileByName name]
                              [GoPublishSystemEvent DeviceProfileSystemEventType
                                 SystemEventActionDelete CoreMetaDataServiceKey
                                 (toDTO (fst found)) ctx]
                        end
                    end
                end
            end
        end
    end.
Proof.
  intros found devices watchers deleted lookup probe1 probe2 Hstrict Hname.
  subst found devices watchers deleted lookup probe1 probe2.
  unfold DeleteDeviceProfileByName, deviceProbe, watcherProbe.
  rewrite Hstrict, (eqb_nonempty _ Hname).
  unfold bind, query, command, go. run_go.
  destruct (interfaces.DeviceProfileByName (DBClientFrom dic) name db)
    as [profile [e|]]; run_go; [reflexivity|].
  destruct (interfaces.DevicesByProfileName (DBClientFrom dic) 0 1 name db)
    as [[|device rest] [e|]]; run_go; try reflexivity.
  cbn [Datatypes.length Z.of_nat Z.ltb Z.compare]. run_go.
  destruct (interfaces.ProvisionWatchersByProfileName (DBClientFrom dic) 0 1 name db)
    as [[|watcher rest] [e|]]; run_go; try reflexivity.
  cbn [Datatypes.length Z.of_nat Z.ltb Z.compare]. run_go.
  destruct (interfaces.DeleteDeviceProfileByName (DBClientFrom dic) name db)
    as [[e|] db']; run_go; reflexivity.
Qed.

(** X11.  A delete-by-name calls the store's delete exactly when all five
    gates pass: strict deletes off, name not empty, the profile found, and
    both probes answered without error and without a row.  Whenever the
    store's delete is not called, the store is as before and nothing is
    scheduled. *)
Theorem delete_called_iff_all_gates_pass
    (name ctx : string) (dic : Container DB) (db : DB) :
  let r := Delete name ctx dic db in
  (In (CallDeleteDeviceProfileByName name) (calls r) <-> deleteGatesPass dic name db)
  /\ (~ In (CallDeleteDeviceProfileByName name) (calls r) ->
      store r = db /\ spawned r = [] /\ existsb isWrite (calls r) = false).
Proof.
  intro r. subst r. unfold deleteGatesPass, profileExists, probeEmpty.
  destruct (StrictDeviceProfileDeletes
              (ProfileChange (Writable (ConfigurationFrom dic)))) eqn:Hstrict.
  { unfold DeleteDeviceProfileByName. rewrite Hstrict. cbn.
    split; [split; [tauto|intros [H _]; discriminate H]|auto]. }
  destruct (String.eqb_spec name EmptyString) as [->|Hname].
  { unfold DeleteDeviceProfileByName. rewrite Hstrict. cbn.
    split; [split; [tauto|intros (_ & H & _); congruence]|auto]. }
  rewrite (DeleteDeviceProfileByName_run name ctx dic db Hstrict Hname).
  destruct (snd (interfaces.DeviceProfileByName (DBClientFrom dic) name db)) as [e|].
  { cbn. split; [split; [intuition discriminate|intros (_ & _ & H & _); discriminate H]|auto]. }
  destruct (deviceProbe dic name db) as [devices [e|]]; cbn [fst snd].
  { cbn. split; [split; [intuition discriminate|];
                 intros (_ & _ & _ & [H _] & _); discriminate H|auto]. }
  destruct devices as [|device rest].
  2:{ cbn. split; [split; [intuition discriminate|];
                   intros (_ & _ & _ & [_ H] & _); discriminate H|auto]. }
  destruct (watcherProbe dic name db) as [watchers [e|]]; cbn [fst snd].
  { cbn. split; [split; [intuition discriminate|];
                 intros (_ & _ & _ & _ & [H _]); discriminate H|auto]. }
  destruct watchers as [|watcher rest'].
  2:{ cbn. split; [split; [intuition discriminate|];
                   intros (_ & _ & _ & _ & [_ H]); discriminate H|auto]. }
  assert (Hin : In (CallDeleteDeviceProfileByName name)
                  [CallDeviceProfileByName name; CallDevicesByProfileName 0 1 name;
                   CallProvisionWatchersByProfileName 0 1 name;
                   CallDeleteDeviceProfileByName name])
    by (cbn; auto).
  destruct (fst _); cbn [calls store spawned];
    (split; [split; [intros _; repeat split; auto|intros _; exact Hin]
            |intro H; exfalso; apply H; exact Hin]).
Qed.

(** X12.  When all five gates pass, a delete whose store call succeeds
    returns nil, leaves the store the delete produced and schedules one
    delete event carrying the profile as it was found before the deletion;
    one whose store call fails returns that error wrapped once, with its
    kind, and schedules nothing.  Either way the calls are the lookup, the
    two probes and the delete, in that order. *)
Theorem delete_removes_and_announces
    (name ctx : string) (dic : Container DB) (db : DB) :
  let r := Delete name ctx dic db in
  let found := interfaces.DeviceProfileByName (DBClientFrom dic) name db in
  let deleted := interfaces.DeleteDeviceProfileByName (DBClientFrom dic) name db in
  deleteGatesPass dic name db ->
  calls r = [CallDeviceProfileByName name; CallDevicesByProfileName 0 1 name;
             CallProvisionWatchersByProfileName 0 1 name;
             CallDeleteDeviceProfileByName name]
  /\ store r = snd deleted
  /\ (fst deleted = None ->
      value r = Returned None
      /\ spawned r = [GoPublishSystemEvent DeviceProfileSystemEventType
                        SystemEventActionDelete CoreMetaDataServiceKey
                        (toDTO (fst found)) ctx])
  /\ (forall e, fst deleted = Some e ->
        value r = Returned (Some (NewCommonEdgeXWrapper e))
        /\ Kind (NewCommonEdgeXWrapper e) = Kind e
        /\ spawned r = []).
Proof.
  intros r found deleted (Hstrict & Hname & Hfound & [Hd1 Hd2] & [Hw1 Hw2]).
  subst r found deleted.
  rewrite (DeleteDeviceProfileByName_run name ctx dic db Hstrict Hname).
  unfold profileExists in Hfound.
  rewrite Hfound, Hd1, Hd2, Hw1, Hw2.
  destruct (fst (interfaces.DeleteDeviceProfileByName (DBClientFrom dic) name db))
    as [e|]; cbn [value store calls spawned].
  - split; [reflexivity|]. split; [reflexivity|]. split; [discriminate|].
    intros e' He. injection He as ->. repeat split.
  - split; [reflexivity|]. split; [reflexivity|]. split; [auto|discriminate].
Qed.

(** X13.  With strict deletes off and a non-empty name, a store error in
    the lookup, in the device probe or in the watcher probe ends the delete
    there: it is returned wrapped once, the later checks are not made, the
    store's delete is not called and the store is as before. *)
Theorem delete_stops_at_first_store_error
    (name ctx : string) (dic : Container DB) (db : DB) (e : EdgeX) :
  let found := interfaces.DeviceProfileByName (DBClientFrom dic) name db in
  let lookup := CallDeviceProfileByName name in
  let probe1 := CallDevicesByProfileName 0 1 name in
  let probe2 := CallProvisionWatchersByProfileName 0 1 name in
  StrictDeviceProfileDeletes (ProfileChange (Writable (ConfigurationFrom dic))) = false ->
  name <> EmptyString ->
  (snd found = Some e ->
   Delete name ctx dic db
   = mkRun (Returned (Some (NewCommonEdgeXWrapper e))) db [lookup] [])
  /\ (profileExists dic name db -> snd (deviceProbe dic name db) = Some e ->
      Delete name ctx dic db
      = mkRun (Returned (Some (NewCommonEdgeXWrapper e))) db [lookup; probe1] [])
  /\ (profileExists dic name db -> probeEmpty (deviceProbe dic name db) ->
      snd (watcherProbe dic name db) = Some e ->
      Delete name ctx dic db
      = mkRun (Returned (Some (NewCommonEdgeXWrapper e))) db [lookup; probe1; probe2] []).
Proof.
  intros found lookup probe1 probe2 Hstrict Hname.
  subst found lookup probe1 probe2.
  rewrite (DeleteDeviceProfileByName_run name ctx dic db Hstrict Hname).
  unfold profileExists, probeEmpty.
  split; [|split].
  - intros ->. reflexivity.
  - intros -> ->. reflexivity.
  - intros -> [-> ->] ->. reflexivity.
Qed.

(** X14.  An empty name never reaches the store: lookup-by-name refuses
    it as invalid-contract, and delete-by-name refuses it as service-locked
    under strict deletes and as invalid-contract otherwise; no call is
    made and nothing is scheduled. *)
Theorem empty_name_is_refused_without_store_call
    (ctx : string) (dic : Container DB) (db : DB) :
  Lookup EmptyString ctx dic db
  = mkRun (Returned (None, Some (NewCommonEdgeX KindContractInvalid "name is empty" None)))
      db [] []
  /\ exists e,
       Delete EmptyString ctx dic db = mkRun (Returned (Some e)) db [] []
       /\ Kind e
          = if StrictDeviceProfileDeletes
                 (ProfileChange (Writable (ConfigurationFrom dic)))
            then KindServiceLocked else KindContractInvalid.
Proof.
  split; [reflexivity|]. unfold DeleteDeviceProfileByName.
  destruct (StrictDeviceProfileDeletes _); cbn [String.eqb];
    eexists; split; reflexivity.
Qed.

(** X15.  For a non-empty name, lookup-by-name makes one call, the
    store's lookup under that name, and changes nothing; it returns the
    DTO of the profile found and no error, or no DTO and the store's error
    wrapped once. *)
Theorem lookup_returns_dto_or_error
    (name ctx : string) (dic : Container DB) (db : DB) :
  let r := Lookup name ctx dic db in
  let found := interfaces.DeviceProfileByName (DBClientFrom dic) name db in
  name <> EmptyString ->
  calls r = [CallDeviceProfileByName name]
  /\ store r = db
  /\ spawned r = []
  /\ (snd found = None -> value r = Returned (Some (toDTO (fst found)), None))
  /\ (forall e, snd found = Some e ->
        value r = Returned (None, Some (NewCommonEdgeXWrapper e))
        /\ Kind (NewCommonEdgeXWrapper e) = Kind e).
Proof.
  intros r found Hname. subst r found.
  unfold DeviceProfileByName. rewrite (eqb_nonempty _ Hname).
  unfold bind, query. run_go.
  destruct (interfaces.DeviceProfileByName (DBClientFrom dic) name db) as [dp [e|]];
    run_go.
  - do 3 (split; [reflexivity|]). split; [discriminate|].
    intros e' He. injection He as ->. split; reflexivity.
  - do 3 (split; [reflexivity|]). split; [reflexivity|discriminate].
Qed.

(** X16.  [isProfileInUse] makes one call, the device count under the
    profile name, and changes nothing.  It reports the profile in use
    exactly when the count came without error and is positive; when the
    count fails it reports false together with the error wrapped once, and
    otherwise no error. *)
Theorem profile_in_use_iff_positive_count
    (profileName : string) (dic : Container DB) (db : DB) :
  let r := isProfileInUse (DTO := DTO) profileName dic db in
  let counted := interfaces.DeviceCountByProfileName (DBClientFrom dic) profileName db in
  exists inUse err,
    value r = Returned (inUse, err)
    /\ calls r = [CallDeviceCountByProfileName profileName]
    /\ store r = db
    /\ spawned r = []
    /\ (inUse = true <-> snd counted = None /\ 0 < fst counted)
    /\ err = option_map NewCommonEdgeXWrapper (snd counted).
Proof.
  intros r counted. subst r counted. unfold isProfileInUse, bind, query. run_go.
  destruct (interfaces.DeviceCountByProfileName (DBClientFrom dic) profileName db)
    as [count [e|]]; run_go; do 2 eexists; repeat split; try discriminate; auto.
  - intros [H _]. discriminate H.
  - now apply Z.ltb_lt.
  - intros [_ H]. now apply Z.ltb_lt.
Qed.

Lemma listingShape_guarded {A : Type} countCall count pageCall page
    (project : DeviceProfile -> A) (offset limit : Z) (db : DB) :
  countCall <> pageCall ->
  listingGuarded checkCountRange
    (listingShape (DTO := DTO) checkCountRange countCall count pageCall page project
       offset limit db)
    countCall (count db) pageCall offset limit db.
Proof.
  intro Hdiff.
  unfold listingGuarded, listingShape, bind, query. run_go.
  destruct (count db) as [totalCount [cerr|]]; run_go.
  { split; [do 3 eexists; split; reflexivity|].
    do 2 (split; [reflexivity|]). split; [auto|].
    cbn. intros [Hsame|[]]. congruence. }
  destruct (checkCountRange totalCount offset limit) as [[|] rerr]; run_go.
  - destruct (page db) as [dps [perr|]]; run_go.
    + split; [do 3 eexists; split; reflexivity|].
      do 2 (split; [reflexivity|]). split; auto.
    + split; [do 3 eexists; split; [reflexivity|congruence]|].
      do 2 (split; [reflexivity|]). split; auto.
  - split; [do 3 eexists; split; reflexivity|].
    do 2 (split; [reflexivity|]). split; [auto|].
    cbn. intros [Hsame|[]]. congruence.
Qed.

Lemma refused_listing_guarded {A : Type} (e : EdgeX)
    countCall count pageCall (offset limit : Z) (db : DB) :
  listingGuarded (DTO := DTO) (A := A) checkCountRange
    (mkRun (Returned ([], 0, Some e)) db [] [])
    countCall count pageCall offset limit db.
Proof.
  unfold listingGuarded. cbn.
  split; [do 3 eexists; split; reflexivity|]. repeat split; auto; contradiction.
Qed.

Lemma listingShape_serves {A : Type} countCall count pageCall page
    (project : DeviceProfile -> A) (offset limit : Z) (db : DB) :
  listingServes checkCountRange
    (listingShape (DTO := DTO) checkCountRange countCall count pageCall page project
       offset limit db)
    countCall (count db) pageCall (page db) project offset limit.
Proof.
  unfold listingServes, listingShape, bind, query. run_go.
  destruct (count db) as [totalCount [cerr|]]; run_go; [discriminate|].
  intros _.
  destruct (checkCountRange totalCount offset limit) as [[|] rerr]; run_go;
    [|discriminate].
  intros _. destruct (page db) as [dps [perr|]]; run_go.
  - split; [reflexivity|]. split; [discriminate|].
    intros e He. now injection He as ->.
  - split; [reflexivity|]. split; [reflexivity|discriminate].
Qed.

(** X17.  Every listing, on every input (empty filter fields included),
    returns; an error always comes with the empty page; the store is as
    before and nothing is scheduled; the listing makes no call, or the
    count query, or the count query followed by the page query; and the
    page query is made only after a count without error and a range check
    that says to continue. *)
Theorem listings_are_guarded_reads
    (offset limit : Z) (labels : list string) (manufacturer model : string)
    (dic : Container DB) (db : DB) :
  let dbClient := DBClientFrom dic in
  listingGuarded checkCountRange
    (AllDeviceProfiles toDTO checkCountRange offset limit labels dic db)
    (CallDeviceProfileCountByLabels labels)
    (interfaces.DeviceProfileCountByLabels dbClient labels db)
    (CallAllDeviceProfiles offset limit labels) offset limit db
  /\ listingGuarded checkCountRange
       (DeviceProfilesByModel toDTO checkCountRange offset limit model dic db)
       (CallDeviceProfileCountByModel model)
       (interfaces.DeviceProfileCountByModel dbClient model db)
       (CallDeviceProfilesByModel offset limit model) offset limit db
  /\ listingGuarded checkCountRange
       (DeviceProfilesByManufacturer toDTO checkCountRange offset limit manufacturer dic db)
       (CallDeviceProfileCountByManufacturer manufacturer)
       (interfaces.DeviceProfileCountByManufacturer dbClient manufacturer db)
       (CallDeviceProfilesByManufacturer offset limit manufacturer) offset limit db
  /\ listingGuarded checkCountRange
       (DeviceProfilesByManufacturerAndModel toDTO checkCountRange offset limit
          manufacturer model dic db)
       (CallDeviceProfileCountByManufacturerAndModel manufacturer model)
       (interfaces.DeviceProfileCountByManufacturerAndModel dbClient manufacturer model db)
       (CallDeviceProfilesByManufacturerAndModel offset limit manufacturer model)
       offset limit db
  /\ listingGuarded checkCountRange
       (AllDeviceProfileBasicInfos (DTO := DTO) toBasicInfoDTO checkCountRange
          offset limit labels dic db)
       (CallDeviceProfileCountByLabels labels)
       (interfaces.DeviceProfileCountByLabels dbClient labels db)
       (CallAllDeviceProfiles offset limit labels) offset limit db.
Proof.
  intro dbClient. subst dbClient.
  split; [|split; [|split; [|split]]].
  - rewrite AllDeviceProfiles_shape. apply listingShape_guarded. discriminate.
  - destruct (String.eqb_spec model EmptyString) as [->|Hmod].
    + apply refused_listing_guarded.
    + rewrite (DeviceProfilesByModel_shape _ _ _ _ _ _ Hmod).
      apply listingShape_guarded. discriminate.
  - destruct (String.eqb_spec manufacturer EmptyString) as [->|Hman].
    + apply refused_listing_guarded.
    + rewrite (DeviceProfilesByManufacturer_shape _ _ _ _ _ _ Hman).
      apply listingShape_guarded. discriminate.
  - destruct (String.eqb_spec manufacturer EmptyString) as [->|Hman].
    + apply refused_listing_guarded.
    + destruct (String.eqb_spec model EmptyString) as [->|Hmod].
      * unfold DeviceProfilesByManufacturerAndModel.
        rewrite (eqb_nonempty _ Hman). apply refused_listing_guarded.
      * rewrite (DeviceProfilesByManufacturerAndModel_shape _ _ _ _ _ _ _ Hman Hmod).
        apply listingShape_guarded. discriminate.
  - rewrite AllDeviceProfileBasicInfos_shape. apply listingShape_guarded. discriminate.
Qed.

(** X18.  For each listing called with non-empty required filter fields,
    once the count succeeded and the range check said to continue, the
    listing asks the store for the page with the offset, limit and filter
    it was given, and returns the projection of the rows the store
    returned, one entry per row and in the same order, with the counted
    total and no error; if the page query fails it returns the empty page,
    the counted total and the store's error wrapped once. *)
Theorem listings_return_projected_rows
    (offset limit : Z) (labels : list string) (manufacturer model : string)
    (dic : Container DB) (db : DB) :
  manufacturer <> EmptyString ->
  model <> EmptyString ->
  let dbClient := DBClientFrom dic in
  listingServes checkCountRange
    (AllDeviceProfiles toDTO checkCountRange offset limit labels dic db)
    (CallDeviceProfileCountByLabels labels)
    (interfaces.DeviceProfileCountByLabels dbClient labels db)
    (CallAllDeviceProfiles offset limit labels)
    (interfaces.AllDeviceProfiles dbClient offset limit labels db)
    toDTO offset limit
  /\ listingServes checkCountRange
       (DeviceProfilesByModel toDTO checkCountRange offset limit model dic db)
       (CallDeviceProfileCountByModel model)
       (interfaces.DeviceProfileCountByModel dbClient model db)
       (CallDeviceProfilesByModel offset limit model)
       (interfaces.DeviceProfilesByModel dbClient offset limit model db)
       toDTO offset limit
  /\ listingServes checkCountRange
       (DeviceProfilesByManufacturer toDTO checkCountRange offset limit manufacturer dic db)
       (CallDeviceProfileCountByManufacturer manufacturer)
       (interfaces.DeviceProfileCountByManufacturer dbClient manufacturer db)
       (CallDeviceProfilesByManufacturer offset limit manufacturer)
       (interfaces.DeviceProfilesByManufacturer dbClient offset limit manufacturer db)
       toDTO offset limit
  /\ listingServes checkCountRange
       (DeviceProfilesByManufacturerAndModel toDTO checkCountRange offset limit
          manufacturer model dic db)
       (CallDeviceProfileCountByManufacturerAndModel manufacturer model)
       (interfaces.DeviceProfileCountByManufacturerAndModel dbClient manufacturer model db)
       (CallDeviceProfilesByManufacturerAndModel offset limit manufacturer model)
       (interfaces.DeviceProfilesByManufacturerAndModel dbClient offset limit
          manufacturer model db)
       toDTO offset limit
  /\ listingServes checkCountRange
       (AllDeviceProfileBasicInfos (DTO := DTO) toBasicInfoDTO checkCountRange
          offset limit labels dic db)
       (CallDeviceProfileCountByLabels labels)
       (interfaces.DeviceProfileCountByLabels dbClient labels db)
       (CallAllDeviceProfiles offset limit labels)
       (interfaces.AllDeviceProfiles dbClient offset limit labels db)
       toBasicInfoDTO offset limit.
Proof.
  intros Hman Hmod dbClient. subst dbClient.
  rewrite AllDeviceProfiles_shape, AllDeviceProfileBasicInfos_shape,
    (DeviceProfilesByModel_shape _ _ _ _ _ _ Hmod),
    (DeviceProfilesByManufacturer_shape _ _ _ _ _ _ Hman),
    (DeviceProfilesByManufacturerAndModel_shape _ _ _ _ _ _ _ Hman Hmod).
  split; [|split; [|split; [|split]]]; apply listingShape_serves.
Qed.

(** How a patch runs. *)
Lemma PatchDeviceProfileBasicInfo_run
    (ctx : string) (dto : UpdateDeviceProfileBasicInfo) (dic : Container DB) (db : DB) :
  let dbClient := DBClientFrom dic in
  Patch ctx dto dic db
  = match resolveTarget dbClient dto db with
    | None => mkRun (Panicked nilDereference) db [] []
    | Some (found, Some e) =>
        mkRun (Returned (Some (NewCommonEdgeXWrapper (NewCommonEdgeXWrapper e)))) db
          [resolveCall dto] []
    | Some (found, None) =>
        if nameDisagrees dto found then
          mkRun
            (Returned
               (Some (NewCommonEdgeXWrapper
                        (NewCommonEdgeX KindContractInvalid
                           ("device profile name '"
                              ++ match dtoName dto with Some n => n | None => EmptyString end
                              ++ "' not match the exsting '"
                              ++ Name found ++ "' ")%string
                           None))))
            db [resolveCall dto] []
        else
          let merged := replaceBasicInfo found dto in
          let replaced := interfaces.UpdateDeviceProfile dbClient merged db in
          match fst replaced with
          | Some e =>
              mkRun (Returned (Some (NewCommonEdgeXWrapper e))) (snd replaced)
                [resolveCall dto; CallUpdateDeviceProfile merged] []
          | None =>
              mkRun (Returned None) (snd replaced)
                [resolveCall dto; CallUpdateDeviceProfile merged]
                [GoPublishUpdateDeviceProfileSystemEvent (toDTO merged) ctx]
          end
    end.
Proof.
  intro dbClient. subst dbClient.
  unfold PatchDeviceProfileBasicInfo, bind.
  rewrite deviceProfileByDTO_run. unfold resolveCall, nameDisagrees.
  destruct (resolveTarget (DBClientFrom dic) dto db) as [[found [e|]]|]; run_go;
    try reflexivity.
  unfold command, go.
  destruct (dtoName dto) as [name|]; [destruct (String.eqb name (Name found))|];
    run_go; try reflexivity;
    destruct (interfaces.UpdateDeviceProfile (DBClientFrom dic)
                (replaceBasicInfo found dto) db) as [[e|] db'];
    run_go; reflexivity.
Qed.

(** X19.  A patch whose target was found, and whose payload carries no
    name or the name of the record found, calls the store's replace with
    the record found after the payload's fields were applied to it, and
    does not fetch it again.  If the replace succeeds the patch returns
    nil and schedules one update event carrying that merged record; if it
    fails the patch returns the store's error wrapped once and schedules
    nothing. *)
Theorem patch_replaces_with_merged_record
    (ctx : string) (dto : UpdateDeviceProfileBasicInfo) (dic : Container DB) (db : DB)
    (found : DeviceProfile) :
  let dbClient := DBClientFrom dic in
  let r := Patch ctx dto dic db in
  let merged := replaceBasicInfo found dto in
  let replaced := interfaces.UpdateDeviceProfile dbClient merged db in
  resolveTarget dbClient dto db = Some (found, None) ->
  nameDisagrees dto found = false ->
  calls r = [resolveCall dto; CallUpdateDeviceProfile merged]
  /\ store r = snd replaced
  /\ (fst replaced = None ->
      value r = Returned None
      /\ spawned r = [GoPublishUpdateDeviceProfileSystemEvent (toDTO merged) ctx])
  /\ (forall e, fst replaced = Some e ->
        value r = Returned (Some (NewCommonEdgeXWrapper e))
        /\ Kind (NewCommonEdgeXWrapper e) = Kind e
        /\ spawned r = []).
Proof.
  intros dbClient r merged replaced Hfound Hname. subst r dbClient.
  rewrite PatchDeviceProfileBasicInfo_run, Hfound, Hname. cbv zeta.
  fold merged. fold replaced.
  destruct (fst replaced) as [e|]; cbn [value store calls spawned].
  - do 2 (split; [reflexivity|]). split; [discriminate|].
    intros e' He. injection He as ->. repeat split.
  - do 2 (split; [reflexivity|]). split; [auto|discriminate].
Qed.

(** X20.  A patch whose lookup fails returns the store's error, wrapped
    twice (once by the resolution, once by the patch) and so with its
    kind; the lookup is its only call, the store is as before and nothing
    is scheduled. *)
Theorem patch_stops_at_failed_lookup
    (ctx : string) (dto : UpdateDeviceProfileBasicInfo) (dic : Container DB) (db : DB)
    (found : DeviceProfile) (e : EdgeX) :
  resolveTarget (DBClientFrom dic) dto db = Some (found, Some e) ->
  Patch ctx dto dic db
  = mkRun (Returned (Some (NewCommonEdgeXWrapper (NewCommonEdgeXWrapper e)))) db
      [resolveCall dto] []
  /\ Kind (NewCommonEdgeXWrapper (NewCommonEdgeXWrapper e)) = Kind e.
Proof.
  intro Hfound. rewrite PatchDeviceProfileBasicInfo_run, Hfound. split; reflexivity.
Qed.

(** X21.  A patch panics exactly when the payload has neither a non-empty
    id nor a name; it then has made no call, the store is as before and
    nothing is scheduled. *)
Theorem patch_panics_iff_no_selector
    (ctx : string) (dto : UpdateDeviceProfileBasicInfo) (dic : Container DB) (db : DB) :
  let r := Patch ctx dto dic db in
  ((exists reason, value r = Panicked reason)
     <-> hasId dto = false /\ dtoName dto = None)
  /\ ((exists reason, value r = Panicked reason) ->
      r = mkRun (Panicked nilDereference) db [] []).
Proof.
  intro r. subst r. rewrite PatchDeviceProfileBasicInfo_run.
  pose proof (resolveTarget_none (DBClientFrom dic) dto db) as Hnone.
  destruct (resolveTarget (DBClientFrom dic) dto db) as [[found [e|]]|].
  - split; [split|]; [intros [reason H]; discriminate H
                     |intro H; apply Hnone in H; discriminate H
                     |intros [reason H]; discriminate H].
  - destruct (nameDisagrees dto found); [|cbv zeta; destruct (fst _)];
      (split; [split|]; [intros [reason H]; discriminate H
                        |intro H; apply Hnone in H; discriminate H
                        |intros [reason H]; discriminate H]).
  - split; [split|]; [intros _; now apply Hnone|intros _; eexists; reflexivity|reflexivity].
Qed.

(** X22.  A patch never calls the validator and never runs the capacity
    check, whatever the configuration: its calls are none, or the lookup,
    or the lookup followed by one replace. *)
Theorem patch_skips_validation_and_capacity
    (ctx : string) (dto : UpdateDeviceProfileBasicInfo) (dic : Container DB) (db : DB) :
  let r := Patch ctx dto dic db in
  existsb isValidate (calls r) = false
  /\ existsb isCapacityCheck (calls r) = false
  /\ (calls r = []
      \/ calls r = [resolveCall dto]
      \/ exists merged, calls r = [resolveCall dto; CallUpdateDeviceProfile merged]).
Proof.
  intro r. subst r. rewrite PatchDeviceProfileBasicInfo_run.
  assert (Hcall : isValidate (resolveCall dto) = false
                  /\ isCapacityCheck (resolveCall dto) = false)
    by (unfold resolveCall; destruct (hasId dto); split; reflexivity).
  destruct Hcall as [Hv Hc].
  destruct (resolveTarget (DBClientFrom dic) dto db) as [[found [e|]]|];
    [| destruct (nameDisagrees dto found); [|cbv zeta; destruct (fst _)] |];
    cbn [calls existsb isValidate isCapacityCheck orb]; rewrite ?Hv, ?Hc;
    repeat split; eauto.
Qed.

(** Closes the goals of the event theorem once the run is a record. *)
Ltac event_case :=
  let H := fresh "H" in
  let x := fresh "x" in
  cbn [value spawned length];
  split;
  [split; intro H;
   [lazymatch type of H with
    | ex _ => destruct H as [x H]
    | _ => idtac
    end;
    first [discriminate H | eexists; reflexivity]
   |destruct H as [x H]; first [discriminate H | reflexivity | eexists; reflexivity]]
  |lia].

(** X23.  Each of the four mutating operations schedules an event
    exactly when it returns without error, and then exactly one, of its
    own kind: add and delete publish a device-profile system event with
    the add, respectively delete, action for core-metadata; update and
    patch start the update publisher.  Every event carries the context of
    the call. *)
Theorem event_scheduled_iff_success
    (d : DeviceProfile) (dto : UpdateDeviceProfileBasicInfo) (name ctx : string)
    (dic : Container DB) (db : DB) :
  (let r := Add d ctx dic db in
   ((exists id, value r = Returned (id, None))
      <-> exists payload,
            spawned r = [GoPublishSystemEvent DeviceProfileSystemEventType
                           SystemEventActionAdd CoreMetaDataServiceKey payload ctx])
   /\ (length (spawned r) <= 1)%nat)
  /\ (let r := Update d ctx dic db in
      (value r = Returned None
         <-> exists payload,
               spawned r = [GoPublishUpdateDeviceProfileSystemEvent payload ctx])
      /\ (length (spawned r) <= 1)%nat)
  /\ (let r := Patch ctx dto dic db in
      (value r = Returned None
         <-> exists payload,
               spawned r = [GoPublishUpdateDeviceProfileSystemEvent payload ctx])
      /\ (length (spawned r) <= 1)%nat)
  /\ (let r := Delete name ctx dic db in
      (value r = Returned None
         <-> exists payload,
               spawned r = [GoPublishSystemEvent DeviceProfileSystemEventType
                              SystemEventActionDelete CoreMetaDataServiceKey payload ctx])
      /\ (length (spawned r) <= 1)%nat).
Proof.
  clear toBasicInfoDTO checkCountRange.
  split; [|split; [|split]]; cbv zeta.
  - rewrite AddDeviceProfile_run.
    destruct (validationVerdict d dic); [|destruct (snd (fst _))]; event_case.
  - rewrite (UpdateDeviceProfile_run toDTO capacityVerdict).
    destruct (validationVerdict d dic);
      [|destruct (if 0 <? _ then _ else _);
        [|destruct (fst _); [|destruct (snd _)]]];
      event_case.
  - rewrite PatchDeviceProfileBasicInfo_run.
    destruct (resolveTarget (DBClientFrom dic) dto db) as [[found [e|]]|];
      [|destruct (nameDisagrees dto found); [|cbv zeta; destruct (fst _)]|];
      event_case.
  - destruct (StrictDeviceProfileDeletes
                (ProfileChange (Writable (ConfigurationFrom dic)))) eqn:Hstrict.
    { unfold DeleteDeviceProfileByName. rewrite Hstrict. unfold ret. event_case. }
    destruct (String.eqb_spec name EmptyString) as [->|Hname].
    { unfold DeleteDeviceProfileByName. rewrite Hstrict. cbn [String.eqb]. unfold ret.
      event_case. }
    rewrite (DeleteDeviceProfileByName_run name ctx dic db Hstrict Hname).
    destruct (snd (interfaces.DeviceProfileByName _ _ _));
      [|destruct (snd (deviceProbe _ _ _));
        [|destruct (fst (deviceProbe _ _ _));
          [destruct (snd (watcherProbe _ _ _));
           [|destruct (fst (watcherProbe _ _ _)); [destruct (fst _)|]]|]]];
      event_case.
Qed.

End Paths.

(** ** The path theorems at concrete inputs, over the in-memory store *)

(** X8 at an add into the empty store, and at an add of a name that is
    already stored. *)
Lemma add_returns_stored_id_or_store_error_witness :
  (let r := AddDeviceProfile MemStore.toDTO (MemStore.withId EmptyString
                                               (MemStore.tempSensor "Celsius"))
              "corr-1" (MemStore.container true 0 false) (MemStore.mk [] [] []) in
   value r = Returned ("id-Temp-Sensor-X", None)
   /\ spawned r = [GoPublishSystemEvent DeviceProfileSystemEventType SystemEventActionAdd
                     CoreMetaDataServiceKey
                     (MemStore.withId "id-Temp-Sensor-X" (MemStore.tempSensor "Celsius"))
                     "corr-1"])
  /\ (let r := AddDeviceProfile MemStore.toDTO (MemStore.tempSensor "Celsius") "corr-1"
                 (MemStore.container true 0 false) MemStore.onlyProfile in
      let e := NewCommonEdgeX KindDuplicateName "device profile name exists" None in
      value r = Returned (EmptyString, Some (NewCommonEdgeXWrapper e))
      /\ Kind (NewCommonEdgeXWrapper e) = Kind e
      /\ spawned r = []).
Proof.
  split.
  - refine (proj1 (proj2 (add_returns_stored_id_or_store_error MemStore.toDTO
                            (MemStore.withId EmptyString (MemStore.tempSensor "Celsius"))
                            "corr-1" (MemStore.container true 0 false)
                            (MemStore.mk [] [] []) _)) _); reflexivity.
  - refine (proj2 (proj2 (add_returns_stored_id_or_store_error MemStore.toDTO
                            (MemStore.tempSensor "Celsius") "corr-1"
                            (MemStore.container true 0 false) MemStore.onlyProfile _))
              _ _); reflexivity.
Defined.

(** X10 at an update against a store that refuses writes. *)
Lemma update_stops_at_failed_replace_witness :
  let d := MemStore.tempSensor "Percent" in
  let r := UpdateDeviceProfile MemStore.toDTO MemStore.capacity d "corr-1"
             (MemStore.containerOver MemStore.readOnlyClient true 0 false)
             MemStore.onlyProfile in
  value r = Returned (Some (NewCommonEdgeXWrapper MemStore.unavailable))
  /\ Kind (NewCommonEdgeXWrapper MemStore.unavailable) = Kind MemStore.unavailable
  /\ store r = MemStore.onlyProfile
  /\ spawned r = []
  /\ (exists before, calls r = before ++ [CallUpdateDeviceProfile d])
  /\ ~ In (CallDeviceProfileByName (Name d)) (calls r).
Proof.
  apply (update_stops_at_failed_replace MemStore.toDTO MemStore.capacity
           (MemStore.tempSensor "Percent") "corr-1"
           (MemStore.containerOver MemStore.readOnlyClient true 0 false)
           MemStore.onlyProfile MemStore.unavailable).
  - vm_compute. right. left. reflexivity.
  - reflexivity.
Defined.

(** X12 at the delete of a stored profile that nothing uses. *)
Lemma delete_removes_and_announces_witness :
  let r := DeleteDeviceProfileByName MemStore.toDTO "Temp-Sensor-X" "corr-1"
             (MemStore.container true 0 false) MemStore.onlyProfile in
  calls r = [CallDeviceProfileByName "Temp-Sensor-X";
             CallDevicesByProfileName 0 1 "Temp-Sensor-X";
             CallProvisionWatchersByProfileName 0 1 "Temp-Sensor-X";
             CallDeleteDeviceProfileByName "Temp-Sensor-X"]
  /\ store r = MemStore.mk [] [] []
  /\ value r = Returned None
  /\ spawned r = [GoPublishSystemEvent DeviceProfileSystemEventType SystemEventActionDelete
                     CoreMetaDataServiceKey (MemStore.tempSensor "Celsius") "corr-1"].
Proof.
  destruct (delete_removes_and_announces MemStore.toDTO "Temp-Sensor-X" "corr-1"
              (MemStore.container true 0 false) MemStore.onlyProfile)
    as (Hcalls & Hstore & Hok & _).
  - split; [reflexivity|]. split; [discriminate|]. split; [reflexivity|].
    split; split; reflexivity.
  - split; [exact Hcalls|]. split; [exact Hstore|]. apply Hok. reflexivity.
Defined.

(** X13 at a stored profile when the device probe fails. *)
Lemma delete_stops_at_first_store_error_witness :
  DeleteDeviceProfileByName MemStore.toDTO "Temp-Sensor-X" "corr-1"
    (MemStore.containerOver MemStore.noRowsClient true 0 false) MemStore.onlyProfile
  = mkRun (Returned (Some (NewCommonEdgeXWrapper MemStore.unavailable)))
      MemStore.onlyProfile
      [CallDeviceProfileByName "Temp-Sensor-X";
       CallDevicesByProfileName 0 1 "Temp-Sensor-X"] [].
Proof.
  refine (proj1 (proj2 (delete_stops_at_first_store_error MemStore.toDTO
                          "Temp-Sensor-X" "corr-1"
                          (MemStore.containerOver MemStore.noRowsClient true 0 false)
                          MemStore.onlyProfile MemStore.unavailable _ _)) _ _);
    try reflexivity.
  discriminate.
Defined.

(** X15 at a stored name and at a name that is not stored. *)
Lemma lookup_returns_dto_or_error_witness :
  value (DeviceProfileByName MemStore.toDTO "Temp-Sensor-X" "corr-1"
           (MemStore.container true 0 false) MemStore.onlyProfile)
  = Returned (Some (MemStore.tempSensor "Celsius"), None)
  /\ value (DeviceProfileByName MemStore.toDTO "Nowhere" "corr-1"
              (MemStore.container true 0 false) MemStore.onlyProfile)
     = Returned (None, Some (NewCommonEdgeXWrapper MemStore.notFound)).
Proof.
  split.
  - refine (proj1 (proj2 (proj2 (proj2
              (lookup_returns_dto_or_error MemStore.toDTO "Temp-Sensor-X" "corr-1"
                 (MemStore.container true 0 false) MemStore.onlyProfile _)))) _).
    + discriminate.
    + reflexivity.
  - refine (proj1 (proj2 (proj2 (proj2 (proj2
              (lookup_returns_dto_or_error MemStore.toDTO "Nowhere" "corr-1"
                 (MemStore.container true 0 false) MemStore.onlyProfile _))))
              MemStore.notFound _)).
    + discriminate.
    + reflexivity.
Defined.

(** X18 at a list-by-model over two stored profiles, one of the model,
    and at the same listing when the page query fails. *)
Lemma listings_return_projected_rows_witness :
  value (DeviceProfilesByModel MemStore.toDTO MemStore.checkCountRange 0 10 "T1000"
           (MemStore.container true 0 false) MemStore.twoProfiles)
  = Returned ([MemStore.tempSensor "Celsius"], 1, None)
  /\ value (DeviceProfilesByModel MemStore.toDTO MemStore.checkCountRange 0 10 "T1000"
              (MemStore.containerOver MemStore.noRowsClient true 0 false)
              MemStore.twoProfiles)
     = Returned ([], 1, Some (NewCommonEdgeXWrapper MemStore.unavailable)).
Proof.
  split.
  - destruct (listings_return_projected_rows MemStore.toDTO MemStore.toBasicInfoDTO
                MemStore.checkCountRange 0 10 [] "Acme" "T1000"
                (MemStore.container true 0 false) MemStore.twoProfiles)
      as (_ & Hmodel & _); try discriminate.
    apply Hmodel; reflexivity.
  - destruct (listings_return_projected_rows MemStore.toDTO MemStore.toBasicInfoDTO
                MemStore.checkCountRange 0 10 [] "Acme" "T1000"
                (MemStore.containerOver MemStore.noRowsClient true 0 false)
                MemStore.twoProfiles)
      as (_ & Hmodel & _); try discriminate.
    apply Hmodel; reflexivity.
Defined.

(** X19 at a patch by id that carries the stored name and a description. *)
Lemma patch_replaces_with_merged_record_witness :
  let dto := MemStore.patchOf (Some "id-1") (Some "Temp-Sensor-X") in
  let merged := MemStore.replaceBasicInfo (MemStore.tempSensor "Celsius") dto in
  let r := PatchDeviceProfileBasicInfo MemStore.toDTO MemStore.replaceBasicInfo "corr-1"
             dto (MemStore.container true 0 false) MemStore.onlyProfile in
  Description merged = "patched"
  /\ calls r = [CallDeviceProfileById "id-1"; CallUpdateDeviceProfile merged]
  /\ store r = MemStore.mk [merged] [] []
  /\ value r = Returned None
  /\ spawned r = [GoPublishUpdateDeviceProfileSystemEvent merged "corr-1"].
Proof.
  destruct (patch_replaces_with_merged_record MemStore.toDTO MemStore.replaceBasicInfo
              "corr-1" (MemStore.patchOf (Some "id-1") (Some "Temp-Sensor-X"))
              (MemStore.container true 0 false) MemStore.onlyProfile
              (MemStore.tempSensor "Celsius"))
    as (Hcalls & Hstore & Hok & _); try reflexivity.
  split; [reflexivity|]. split; [exact Hcalls|]. split; [exact Hstore|].
  apply Hok. reflexivity.
Defined.

(** X20 at a patch by an id that is not stored. *)
Lemma patch_stops_at_failed_lookup_witness :
  PatchDeviceProfileBasicInfo MemStore.toDTO MemStore.replaceBasicInfo "corr-1"
    (MemStore.patchOf (Some "id-9") None) (MemStore.container true 0 false)
    MemStore.onlyProfile
  = mkRun (Returned (Some (NewCommonEdgeXWrapper (NewCommonEdgeXWrapper MemStore.notFound))))
      MemStore.onlyProfile [CallDeviceProfileById "id-9"] [].
Proof.
  apply (patch_stops_at_failed_lookup MemStore.toDTO MemStore.replaceBasicInfo "corr-1"
           (MemStore.patchOf (Some "id-9") None) (MemStore.container true 0 false)
           MemStore.onlyProfile MemStore.zeroProfile MemStore.notFound).
  reflexivity.
Defined.

(** ** The listings under the range check of the specification *)

Section RangeCheck.
Context {DB DTO BasicInfoDTO : Type}.
Variable toDTO : DeviceProfile -> DTO.
Variable toBasicInfoDTO : DeviceProfile -> BasicInfoDTO.

Lemma CheckCountRange_cases (totalCount offset limit : Z) :
  (offset < 0
   /\ exists e, CheckCountRange totalCount offset limit = (false, Some e)
                /\ Kind e = KindContractInvalid)
  \/ (0 <= offset /\ totalCount < offset
      /\ CheckCountRange totalCount offset limit = (false, None))
  \/ (0 <= offset <= totalCount
      /\ CheckCountRange totalCount offset limit = (true, None)).
Proof.
  unfold CheckCountRange.
  destruct (Z.ltb_spec offset 0) as [Hneg|Hpos].
  - left. split; [exact Hneg|]. eexists. split; reflexivity.
  - destruct (Z.ltb_spec totalCount offset) as [Hout|Hin].
    + right. left. repeat split; assumption.
    + right. right. repeat split; assumption.
Qed.

Lemma listingShape_refusal {A : Type} countCall count pageCall page
    (project : DeviceProfile -> A) (offset limit : Z) (db : DB) :
  listingRefusal
    (listingShape (DTO := DTO) CheckCountRange countCall count pageCall page project
       offset limit db)
    countCall (count db) offset limit db.
Proof.
  split; [apply listingShape_contract|].
  unfold listingShape, bind, query. run_go.
  destruct (count db) as [totalCount [cerr|]]; run_go.
  { split; [discriminate|]. split; discriminate. }
  destruct (CheckCountRange_cases totalCount offset limit)
    as [(Hneg & e & Hcheck & Hkind) | [(Hpos & Hout & Hcheck) | (Hin & Hcheck)]];
    rewrite Hcheck; run_go.
  - split; [intros _ Hpos _; lia|]. split.
    + intros _ _. exists e. repeat split. exact Hkind.
    + intros _ _ page' total e' Hv. injection Hv as _ _ <-. split; assumption.
  - split; [intros _ _ _; split; reflexivity|]. split.
    + intros _ Hneg. lia.
    + intros _ _ page' total e' Hv. discriminate Hv.
  - split; [intros _ _ Hout; lia|]. split.
    + intros _ Hneg. lia.
    + intros _ Hcalls. exfalso.
      destruct (page db) as [dps [perr|]]; run_go; cbn in Hcalls; discriminate Hcalls.
Qed.

(** C7.  Under the range check of the specification, for each listing
    called with non-empty required filter fields: the total returned is the
    total the store's count query answered, on every path; when the check
    declares the window unservable, the listing returns the empty page with
    that total after the count query alone; in the degenerate out-of-range
    case (an offset that is not negative and lies beyond the total) it does
    so with no error; and an error out of the check comes only with an
    invalid pagination input (a negative offset), as an invalid-contract
    error. *)
Theorem listing_total_and_unservable_window
    (offset limit : Z) (labels : list string) (manufacturer model : string)
    (dic : Container DB) (db : DB) :
  manufacturer <> EmptyString ->
  model <> EmptyString ->
  let dbClient := DBClientFrom dic in
  listingRefusal
    (AllDeviceProfiles toDTO CheckCountRange offset limit labels dic db)
    (CallDeviceProfileCountByLabels labels)
    (interfaces.DeviceProfileCountByLabels dbClient labels db) offset limit db
  /\ listingRefusal
       (DeviceProfilesByModel toDTO CheckCountRange offset limit model dic db)
       (CallDeviceProfileCountByModel model)
       (interfaces.DeviceProfileCountByModel dbClient model db) offset limit db
  /\ listingRefusal
       (DeviceProfilesByManufacturer toDTO CheckCountRange offset limit manufacturer dic db)
       (CallDeviceProfileCountByManufacturer manufacturer)
       (interfaces.DeviceProfileCountByManufacturer dbClient manufacturer db)
       offset limit db
  /\ listingRefusal
       (DeviceProfilesByManufacturerAndModel toDTO CheckCountRange offset limit
          manufacturer model dic db)
       (CallDeviceProfileCountByManufacturerAndModel manufacturer model)
       (interfaces.DeviceProfileCountByManufacturerAndModel dbClient manufacturer model db)
       offset limit db
  /\ listingRefusal
       (AllDeviceProfileBasicInfos (DTO := DTO) toBasicInfoDTO CheckCountRange
          offset limit labels dic db)
       (CallDeviceProfileCountByLabels labels)
       (interfaces.DeviceProfileCountByLabels dbClient labels db) offset limit db.
Proof.
  intros Hman Hmod dbClient. subst dbClient.
  rewrite AllDeviceProfiles_shape, AllDeviceProfileBasicInfos_shape,
    (DeviceProfilesByModel_shape _ _ _ _ _ _ Hmod),
    (DeviceProfilesByManufacturer_shape _ _ _ _ _ _ Hman),
    (DeviceProfilesByManufacturerAndModel_shape _ _ _ _ _ _ _ Hman Hmod).
  split; [|split; [|split; [|split]]]; apply listingShape_refusal.
Qed.

End RangeCheck.

(** C7 at a window that starts beyond the only matching profile (no
    error), and at a negative offset (invalid-contract). *)
Lemma listing_total_and_unservable_window_witness :
  let dic := MemStore.container true 0 false in
  let db := MemStore.onlyProfile in
  (value (DeviceProfilesByModel MemStore.toDTO CheckCountRange 3 10 "T1000" dic db)
   = Returned ([], 1, None)
   /\ calls (DeviceProfilesByModel MemStore.toDTO CheckCountRange 3 10 "T1000" dic db)
      = [CallDeviceProfileCountByModel "T1000"])
  /\ (exists e,
        value (AllDeviceProfiles MemStore.toDTO CheckCountRange (-1) 10 [] dic db)
        = Returned ([], 1, Some e)
        /\ Kind e = KindContractInvalid
        /\ calls (AllDeviceProfiles MemStore.toDTO CheckCountRange (-1) 10 [] dic db)
           = [CallDeviceProfileCountByLabels []]).
Proof.
  split.
  - destruct (listing_total_and_unservable_window MemStore.toDTO MemStore.toBasicInfoDTO
                3 10 [] "Acme" "T1000" (MemStore.container true 0 false)
                MemStore.onlyProfile)
      as (_ & (_ & Hbeyond & _) & _); try discriminate.
    apply Hbeyond; [reflexivity|vm_compute; discriminate|reflexivity].
  - destruct (listing_total_and_unservable_window MemStore.toDTO MemStore.toBasicInfoDTO
                (-1) 10 [] "Acme" "T1000" (MemStore.container true 0 false)
                MemStore.onlyProfile)
      as ((_ & _ & Hnegative & _) & _); try discriminate.
    apply Hnegative; reflexivity.
Defined.

(** X6 at a profile whose second resource has an unknown unit: the third
    resource is not asked about. *)
Lemma uom_validation_verdict_witness :
  let r := deviceProfileUoMValidation (DTO := DeviceProfile) MemStore.depthGauge
             (MemStore.container true 0 false) MemStore.onlyProfile in
  value r = Returned (Some (NewCommonEdgeX KindContractInvalid
                              "DeviceResource Depth units Furlong is invalid" None))
  /\ calls r = [CallValidate "Celsius"; CallValidate "Furlong"].
Proof.
  refine (proj2 (proj2 (proj2 (proj2 (proj2
            (uom_validation_verdict MemStore.depthGauge (MemStore.container true 0 false)
               MemStore.onlyProfile)))))
            _ [mkDeviceResource "Temperature" (mkResourceProperties "Celsius")]
            (mkDeviceResource "Depth" (mkResourceProperties "Furlong"))
            [mkDeviceResource "Humidity" (mkResourceProperties "Percent")] _ _ _).
  - reflexivity.
  - reflexivity.
  - constructor; [reflexivity|constructor].
  - reflexivity.
Defined.

End ApplicationFacts.
